(** * A shallow embedding of the DevOps agent backend

    The development follows the TypeScript sources of the backend:

    - [types/index.ts]: the shared data model;
    - [agent/AIProvider.ts]: the model adapter, in the revision that carries
      cost tracking and the Groq retry (the second document of
      [src/backend/src/agent/Agent.ts]); the earlier revision of the Groq
      adapter ([src/backend/src/agent/AIProvider.ts]) is kept beside it;
    - [agent/Agent.ts]: the tool registry, the conversation store and the
      orchestration loop;
    - [agent/tools/FileSystemTool.ts]: the file tools and their path check.

    Asynchronous code is written in state-passing style over an abstract
    world [W]: an awaited promise either resolves with a value or rejects with
    an error, and it may change the world.  Everything outside the repository
    (provider endpoints, the clock, the id generator, the file system, the
    JSON codec) is an operation of the [Host] interface.  Calls to the logger
    only write to the log and are left out. *)

From Stdlib Require Import ZArith Ascii String List Bool Lia Floats.
From stdpp Require Import base option list strings gmap pretty.

#[local] Set Warnings "-inexact-float".

Open Scope string_scope.
Open Scope Z_scope.
Open Scope list_scope.

(** ** JavaScript values *)

(** JSON-serialisable values; [Record<string, any>] and [any] payloads. *)
#[local] Unset Elimination Schemes.
Inductive Json : Type :=
| JNull
| JBool (b : bool)
| JNum (x : float)
| JStr (s : string)
| JArr (xs : list Json)
| JObj (fields : list (string * Json)).
#[local] Set Elimination Schemes.

(** Property read [o.k] on a value; [None] stands for [undefined]. *)
Fixpoint assoc_get {V : Type} (k : string) (l : list (string * V)) : option V :=
  match l with
  | [] => None
  | (k', v) :: l' => if String.eqb k' k then Some v else assoc_get k l'
  end.

Definition json_get (k : string) (j : Json) : option Json :=
  match j with
  | JObj fields => assoc_get k fields
  | _ => None
  end.

(** A thrown [Error]: its message, the HTTP [status] and the provider's
    [error.code] of an API error, and the [code] of a Node system error. *)
Record JsError : Type := mkJsError {
  message : string;
  status : option Z;
  error_code : option string;
  code : option string
}.

(** [error.code === c] *)
Definition has_code (error : JsError) (c : string) : bool :=
  match code error with
  | Some c' => String.eqb c' c
  | None => false
  end.

(** [new Error(msg)] *)
Definition Error (msg : string) : JsError :=
  {| message := msg; status := None; error_code := None; code := None |}.

(** The settled state of a promise. *)
Inductive Outcome (A : Type) : Type :=
| Resolved (a : A)
| Rejected (e : JsError).
Arguments Resolved {A} a.
Arguments Rejected {A} e.

(** An awaited computation over the world [W]. *)
Definition Async (W A : Type) : Type := W -> Outcome A * W.

Definition resolve {W A : Type} (a : A) : Async W A := fun w => (Resolved a, w).
Definition throw {W A : Type} (e : JsError) : Async W A := fun w => (Rejected e, w).

Definition bind {W A B : Type} (m : Async W A) (k : A -> Async W B) : Async W B :=
  fun w =>
    match m w with
    | (Resolved a, w') => k a w'
    | (Rejected e, w') => (Rejected e, w')
    end.

(** [try { m } catch (error) { h error }] *)
Definition try_catch {W A : Type} (m : Async W A) (h : JsError -> Async W A) : Async W A :=
  fun w =>
    match m w with
    | (Resolved a, w') => (Resolved a, w')
    | (Rejected e, w') => h e w'
    end.

(** A host operation that cannot fail ([Date.now()], [nanoid()]). *)
Definition lift {W A : Type} (f : W -> A * W) : Async W A :=
  fun w => let '(a, w') := f w in (Resolved a, w').

Notation "'do' x <- m ; k" := (bind m (fun x => k))
  (at level 10, x name, m at level 100, k at level 200,
   format "'[v' 'do'  x  <-  m ; '/' k ']'").

(** [a || d] on strings: the empty string is falsy. *)
Definition or_string (a : option string) (d : string) : string :=
  match a with
  | Some s => if String.eqb s "" then d else s
  | None => d
  end.

(** [a || d] on numbers: [0] and [NaN] are falsy. *)
Definition falsy_number (x : float) : bool :=
  PrimFloat.eqb x 0%float || PrimFloat.is_nan x.

Definition or_number (a : option float) (d : float) : float :=
  match a with
  | Some x => if falsy_number x then d else x
  | None => d
  end.

Definition or_int (a : option Z) (d : Z) : Z :=
  match a with
  | Some x => if Z.eqb x 0 then d else x
  | None => d
  end.

(** ** An insertion-ordered [Map<string, V>]

    [Map.prototype.set] keeps the position of a key that is already present
    and appends a new key; [values()] iterates in insertion order. *)
Definition JsMap (V : Type) : Type := list (string * V).

Definition map_get {V : Type} (k : string) (m : JsMap V) : option V := assoc_get k m.

Fixpoint map_set {V : Type} (k : string) (v : V) (m : JsMap V) : JsMap V :=
  match m with
  | [] => [(k, v)]
  | (k', v') :: m' =>
      if String.eqb k' k then (k, v) :: m' else (k', v') :: map_set k v m'
  end.

Definition map_values {V : Type} (m : JsMap V) : list V := List.map snd m.
Definition map_keys {V : Type} (m : JsMap V) : list string := List.map fst m.

(** The number of entries stored under a key. *)
Definition entries_under {V : Type} (k : string) (m : JsMap V) : nat :=
  length (List.filter (fun kv => String.eqb (fst kv) k) m).

(** [Object.fromEntries(entries)] *)
Definition fromEntries {V : Type} (entries : list (string * V)) : JsMap V :=
  fold_left (fun o kv => map_set (fst kv) (snd kv) o) entries [].

(** ** The data model of [types/index.ts] *)

Inductive Role : Type := user | assistant | system | tool.

Record ToolCall : Type := mkToolCall {
  tc_id : string;
  tc_name : string;
  tc_arguments : Json
}.

Record ToolResult : Type := mkToolResult {
  tr_id : string;
  tr_name : string;
  tr_result : Json;
  tr_error : option string
}.

Record AgentMessage : Type := mkAgentMessage {
  id : string;
  role : Role;
  content : string;
  timestamp : Z;
  toolCalls : option (list ToolCall);
  toolResults : option (list ToolResult)
}.

Inductive ParamType : Type := TString | TNumber | TBoolean | TObject | TArray.

Record ToolParameter : Type := mkToolParameter {
  tp_name : string;
  tp_type : ParamType;
  tp_description : string;
  tp_required : bool;
  tp_enum : option (list string)
}.

Record ToolContext : Type := mkToolContext {
  workspaceRoot : option string;
  currentFile : option string;
  userId : option string;
  sessionId : string
}.

Record Tool (W : Type) : Type := mkTool {
  name : string;
  description : string;
  parameters : list ToolParameter;
  execute : Json -> ToolContext -> Async W Json
}.
Arguments mkTool {W}.
Arguments name {W}.
Arguments description {W}.
Arguments parameters {W}.
Arguments execute {W}.

(** The [provider] field is typed as a union of four literals; the value
    comes from the environment through a cast, hence the fifth case. *)
Inductive Provider : Type :=
| openai | anthropic | groq | ollama
| unsupported (p : string).

Record AgentConfig : Type := mkAgentConfig {
  provider : Provider;
  model : string;
  temperature : option float;
  maxTokens : option Z;
  systemPrompt : option string
}.

Record ConversationHistory : Type := mkConversationHistory {
  messages : list AgentMessage;
  ch_sessionId : string;
  ch_userId : option string;
  metadata : option Json
}.

(** ** Provider wire formats

    The request and response shapes of the three SDKs and of the Ollama
    HTTP endpoint, as far as the adapter builds and reads them. *)

Record FunctionCall : Type := mkFunctionCall {
  fn_name : string;
  fn_arguments : string
}.

Record ChatToolCall : Type := mkChatToolCall {
  ctc_id : string;
  ctc_type : string;
  ctc_function : FunctionCall
}.

Record ChatMessage : Type := mkChatMessage {
  cm_role : Role;
  cm_content : string;
  cm_tool_call_id : option string;
  cm_tool_calls : option (list ChatToolCall)
}.

Record PropDef : Type := mkPropDef {
  pd_type : ParamType;
  pd_description : string;
  pd_enum : option (list string);
  pd_items : option ParamType
}.

Record ParameterSchema : Type := mkParameterSchema {
  ps_type : string;
  properties : JsMap PropDef;
  required : list string
}.

Record FunctionDef : Type := mkFunctionDef {
  fd_name : string;
  fd_description : string;
  fd_parameters : ParameterSchema
}.

Record ToolDefinition : Type := mkToolDefinition {
  td_type : string;
  td_function : FunctionDef
}.

Record ChatRequest : Type := mkChatRequest {
  req_model : string;
  req_messages : list ChatMessage;
  req_tools : option (list ToolDefinition);
  req_temperature : float;
  req_max_tokens : Z
}.

Record Usage : Type := mkUsage {
  prompt_tokens : option Z;
  completion_tokens : option Z
}.

Record OpenAIToolCall : Type := mkOpenAIToolCall {
  otc_id : string;
  otc_function : FunctionCall
}.

Record OpenAIMessage : Type := mkOpenAIMessage {
  om_content : option string;
  om_tool_calls : option (list OpenAIToolCall)
}.

Record OpenAIResponse : Type := mkOpenAIResponse {
  or_id : string;
  or_choices : list OpenAIMessage;
  or_usage : option Usage
}.

Record GroqFunction : Type := mkGroqFunction {
  gf_name : option string;
  gf_arguments : option string
}.

Record GroqToolCall : Type := mkGroqToolCall {
  gtc_id : option string;
  gtc_function : option GroqFunction
}.

Record GroqMessage : Type := mkGroqMessage {
  gm_content : option string;
  gm_tool_calls : option (list GroqToolCall)
}.

Record GroqResponse : Type := mkGroqResponse {
  gr_id : option string;
  gr_choices : list GroqMessage
}.

Record AnthropicMessage : Type := mkAnthropicMessage {
  am_role : Role;
  am_content : string
}.

Record AnthropicToolDef : Type := mkAnthropicToolDef {
  atd_name : string;
  atd_description : string;
  atd_input_schema : ParameterSchema
}.

Record AnthropicRequest : Type := mkAnthropicRequest {
  ar_model : string;
  ar_max_tokens : Z;
  ar_system : string;
  ar_messages : list AnthropicMessage;
  ar_tools : option (list AnthropicToolDef);
  ar_temperature : float
}.

Inductive ContentBlock : Type :=
| TextBlock (text : string)
| ToolUseBlock (block_id block_name : string) (input : Json)
| OtherBlock (type : string).

Record AnthropicResponse : Type := mkAnthropicResponse {
  ares_id : string;
  ares_content : list ContentBlock
}.

Record OllamaMessage : Type := mkOllamaMessage {
  olm_role : Role;
  olm_content : string
}.

Record OllamaRequest : Type := mkOllamaRequest {
  oreq_model : string;
  oreq_messages : list OllamaMessage;
  oreq_stream : bool;
  oreq_options_temperature : float
}.

(** [response.data.message]; [None] when the reply carries no message. *)
Record OllamaResponse : Type := mkOllamaResponse {
  data_message : option string
}.

(** ** The host

    What the backend obtains from outside the repository.  The three SDK
    clients are identified by their API key. *)
Class Host (W : Type) : Type := {
  Date_now : W -> Z * W;
  nanoid : W -> string * W;
  JSON_parse : string -> Outcome Json;
  JSON_stringify : Json -> string;
  process_env : string -> option string;
  process_cwd : string;
  (** the text returned by [getDefaultSystemPrompt()], a fixed prompt *)
  defaultSystemPrompt : string;
  openai_chat_completions_create : string -> ChatRequest -> Async W OpenAIResponse;
  anthropic_messages_create : string -> AnthropicRequest -> Async W AnthropicResponse;
  groq_chat_completions_create : string -> ChatRequest -> Async W GroqResponse;
  axios_post : string -> OllamaRequest -> Async W OllamaResponse;
  (** [CostTracker.getInstance().trackRequest(...)]; it catches its own
      input/output errors *)
  costTracker_trackRequest : string -> string -> Z -> Z -> string -> W -> W;
  fs_stat : string -> Async W bool;
  fs_readFile : string -> Async W string;
  fs_mkdir : string -> Async W unit;
  (** [fs.writeFile(path, data, 'utf-8')]; [data] is whatever the caller
      passed, [None] for [undefined] *)
  fs_writeFile : string -> option Json -> Async W unit;
  (** the message of the [TypeError] that [path] functions throw on an
      argument that is not a string *)
  path_argument_message : option Json -> string;
  (** template interpolation [`${v}`] of a value that is not a string *)
  render_argument : option Json -> string
}.

(** The [TypeError] raised by a property read on [undefined]. *)
Definition TypeError_undefined (prop : string) : JsError :=
  Error ("Cannot read properties of undefined (reading '" +:+ prop +:+ "')").

(** ** The model adapter ([AIProvider]) *)

Record AIProvider : Type := mkAIProvider {
  ai_config : AgentConfig;
  openai_client : option string;
  anthropic_client : option string;
  groq_client : option string
}.

Section AIProviderDefs.
Context {W : Type} `{Host W}.

(** [process.env.K] read under [!...]: unset and empty are both falsy. *)
Definition env_key (k : string) : option string :=
  match process_env k with
  | Some v => if String.eqb v "" then None else Some v
  | None => None
  end.

(** The constructor with its [initialize()] step. *)
Definition new_AIProvider (config : AgentConfig) : Outcome AIProvider :=
  let blank := mkAIProvider config None None None in
  match provider config with
  | openai =>
      match env_key "OPENAI_API_KEY" with
      | None => Rejected (Error "OPENAI_API_KEY not set in environment")
      | Some k => Resolved (mkAIProvider config (Some k) None None)
      end
  | anthropic =>
      match env_key "ANTHROPIC_API_KEY" with
      | None => Rejected (Error "ANTHROPIC_API_KEY not set in environment")
      | Some k => Resolved (mkAIProvider config None (Some k) None)
      end
  | groq =>
      match env_key "GROQ_API_KEY" with
      | None => Rejected (Error "GROQ_API_KEY not set in environment")
      | Some k => Resolved (mkAIProvider config None None (Some k))
      end
  | ollama => Resolved blank
  | unsupported _ => Resolved blank
  end.

(** *** Requests in the OpenAI chat format (OpenAI and Groq) *)

Definition formatToolCall (tc : ToolCall) : ChatToolCall :=
  {| ctc_id := tc_id tc;
     ctc_type := "function";
     ctc_function := {| fn_name := tc_name tc;
                        fn_arguments := JSON_stringify (tc_arguments tc) |} |}.

Definition formatChatMessage (m : AgentMessage) : ChatMessage :=
  match role m with
  | tool =>
      {| cm_role := tool; cm_content := content m;
         cm_tool_call_id := Some (id m); cm_tool_calls := None |}
  | r =>
      {| cm_role := r; cm_content := content m;
         cm_tool_call_id := None;
         cm_tool_calls := option_map (List.map formatToolCall) (toolCalls m) |}
  end.

Definition formatChatMessages (systemMessage : string) (msgs : list AgentMessage)
  : list ChatMessage :=
  {| cm_role := system; cm_content := systemMessage;
     cm_tool_call_id := None; cm_tool_calls := None |}
  :: List.map formatChatMessage msgs.

Definition propDef (p : ToolParameter) : PropDef :=
  {| pd_type := tp_type p;
     pd_description := tp_description p;
     pd_enum := tp_enum p;
     pd_items := match tp_type p with TArray => Some TString | _ => None end |}.

Definition parameterSchema (ps : list ToolParameter) : ParameterSchema :=
  {| ps_type := "object";
     properties := fromEntries (List.map (fun p => (tp_name p, propDef p)) ps);
     required := List.map tp_name (List.filter tp_required ps) |}.

Definition chatToolDefinition (t : Tool W) : ToolDefinition :=
  {| td_type := "function";
     td_function := {| fd_name := name t;
                       fd_description := description t;
                       fd_parameters := parameterSchema (parameters t) |} |}.

(** [defs.length > 0 ? defs : undefined] *)
Definition nonempty_or_undefined {A : Type} (defs : list A) : option (list A) :=
  match defs with
  | [] => None
  | _ => Some defs
  end.

Definition chatRequest (config : AgentConfig) (formattedMessages : list ChatMessage)
    (tools : option (list ToolDefinition)) : ChatRequest :=
  {| req_model := model config;
     req_messages := formattedMessages;
     req_tools := tools;
     req_temperature := or_number (temperature config) 0.7%float;
     req_max_tokens := or_int (maxTokens config) 2000 |}.

(** [response.choices[0].message]; the read of [.message] on a missing
    first choice throws. *)
Definition first_choice {A : Type} (choices : list A) : Async W A :=
  match choices with
  | [] => throw (TypeError_undefined "message")
  | c :: _ => resolve c
  end.

(** *** OpenAI *)

Definition parseOpenAIToolCall (tc : OpenAIToolCall) : Outcome ToolCall :=
  match JSON_parse (fn_arguments (otc_function tc)) with
  | Resolved args =>
      Resolved {| tc_id := otc_id tc;
                  tc_name := fn_name (otc_function tc);
                  tc_arguments := args |}
  | Rejected e => Rejected e
  end.

(** [tool_calls.map(...)] where the callback may throw: the first
    exception leaves the [map]. *)
Fixpoint parseOpenAIToolCalls (tcs : list OpenAIToolCall) : Outcome (list ToolCall) :=
  match tcs with
  | [] => Resolved []
  | tc :: rest =>
      match parseOpenAIToolCall tc with
      | Rejected e => Rejected e
      | Resolved c =>
          match parseOpenAIToolCalls rest with
          | Rejected e => Rejected e
          | Resolved cs => Resolved (c :: cs)
          end
      end
  end.

Definition trackUsage (config : AgentConfig) (msgs : list AgentMessage)
    (usage : option Usage) : Async W unit :=
  fun w =>
    match usage with
    | Some u =>
        (Resolved tt,
         costTracker_trackRequest "openai" (model config)
           (or_int (prompt_tokens u) 0) (or_int (completion_tokens u) 0)
           (or_string (option_map content (last msgs)) "API call") w)
    | None => (Resolved tt, w)
    end.

Definition generateOpenAIResponse (self : AIProvider) (msgs : list AgentMessage)
    (tools : list (Tool W)) (systemMessage : string) : Async W AgentMessage :=
  match openai_client self with
  | None => throw (Error "OpenAI not initialized")
  | Some client =>
      let formattedMessages := formatChatMessages systemMessage msgs in
      let toolDefinitions := List.map chatToolDefinition tools in
      do response <- openai_chat_completions_create client
           (chatRequest (ai_config self) formattedMessages
              (nonempty_or_undefined toolDefinitions));
      do _ <- trackUsage (ai_config self) msgs (or_usage response);
      do message <- first_choice (or_choices response);
      do now <- lift Date_now;
      match om_tool_calls message with
      | Some (tc :: tcs) =>
          match parseOpenAIToolCalls (tc :: tcs) with
          | Rejected e => throw e
          | Resolved calls =>
              resolve {| id := or_id response; role := assistant;
                         content := or_string (om_content message) "";
                         timestamp := now;
                         toolCalls := Some calls; toolResults := None |}
          end
      | _ =>
          resolve {| id := or_id response; role := assistant;
                     content := or_string (om_content message) "";
                     timestamp := now;
                     toolCalls := None; toolResults := None |}
      end
  end.

(** *** Anthropic *)

Definition formatAnthropicMessage (m : AgentMessage) : AnthropicMessage :=
  {| am_role := match role m with assistant => assistant | _ => user end;
     am_content := content m |}.

Definition anthropicToolDefinition (t : Tool W) : AnthropicToolDef :=
  {| atd_name := name t;
     atd_description := description t;
     atd_input_schema := parameterSchema (parameters t) |}.

(** The loop over [response.content]: text blocks are concatenated, each
    [tool_use] block is pushed onto [toolCalls], created on first use. *)
Definition processBlock (acc : string * option (list ToolCall)) (block : ContentBlock)
  : string * option (list ToolCall) :=
  match block with
  | TextBlock text => (fst acc +:+ text, snd acc)
  | ToolUseBlock bid bname input =>
      (fst acc,
       Some (match snd acc with Some cs => cs | None => [] end
             ++ [{| tc_id := bid; tc_name := bname; tc_arguments := input |}]))
  | OtherBlock _ => acc
  end.

Definition generateAnthropicResponse (self : AIProvider) (msgs : list AgentMessage)
    (tools : list (Tool W)) (systemMessage : string) : Async W AgentMessage :=
  match anthropic_client self with
  | None => throw (Error "Anthropic not initialized")
  | Some client =>
      let formattedMessages := List.map formatAnthropicMessage msgs in
      let toolDefinitions := List.map anthropicToolDefinition tools in
      do response <- anthropic_messages_create client
           {| ar_model := model (ai_config self);
              ar_max_tokens := or_int (maxTokens (ai_config self)) 2000;
              ar_system := systemMessage;
              ar_messages := formattedMessages;
              ar_tools := nonempty_or_undefined toolDefinitions;
              ar_temperature := or_number (temperature (ai_config self)) 0.7%float |};
      do now <- lift Date_now;
      let acc := fold_left processBlock (ares_content response) ("", None) in
      resolve {| id := ares_id response; role := assistant;
                 content := fst acc; timestamp := now;
                 toolCalls := snd acc; toolResults := None |}
  end.

(** *** Groq *)

(** [a || `${prefix}${Date.now()}`]: the clock is read only when [a] is
    falsy. *)
Definition or_stamped (a : option string) (prefix : string) : W -> string * W :=
  fun w =>
    match a with
    | Some s =>
        if String.eqb s "" then
          let '(t, w') := Date_now w in (prefix +:+ pretty t, w')
        else (s, w)
    | None => let '(t, w') := Date_now w in (prefix +:+ pretty t, w')
    end.

(** The callback of [.map] on the tool calls of a Groq message: [null]
    when [JSON.parse] throws. *)
Definition parseGroqToolCall (tc : GroqToolCall) : W -> option ToolCall * W :=
  fun w =>
    match gtc_function tc with
    | None => (None, w)
    | Some fn =>
        let '(cid, w') := or_stamped (gtc_id tc) "call-" w in
        match JSON_parse (or_string (gf_arguments fn) "{}") with
        | Resolved args =>
            (Some {| tc_id := cid; tc_name := or_string (gf_name fn) "";
                     tc_arguments := args |}, w')
        | Rejected _ => (None, w')
        end
    end.

(** [l.map(f)] for a callback that reads the clock. *)
Fixpoint mapW {A B : Type} (f : A -> W -> B * W) (l : list A) (w : W) : list B * W :=
  match l with
  | [] => ([], w)
  | a :: l' =>
      let '(b, w1) := f a w in
      let '(bs, w2) := mapW f l' w1 in
      (b :: bs, w2)
  end.

(** [.filter(tc => tc.function).map(...).filter(tc => tc !== null)] *)
Definition parseGroqToolCalls (tcs : list GroqToolCall) : W -> list ToolCall * W :=
  fun w =>
    let with_function :=
      List.filter (fun tc => match gtc_function tc with Some _ => true | None => false end) tcs in
    let '(parsed, w') := mapW parseGroqToolCall with_function w in
    (omap (fun o => o) parsed, w').

Definition groq_apology : string :=
  "I apologize, but I encountered an issue with function calling. Please try rephrasing your request or use a different command.".

(** [error.status === 400 && error.error?.code === 'tool_use_failed'] *)
Definition is_tool_use_failed (error : JsError) : bool :=
  match status error, error_code error with
  | Some st, Some c => Z.eqb st 400 && String.eqb c "tool_use_failed"
  | _, _ => false
  end.

Definition generateGroqResponse (self : AIProvider) (msgs : list AgentMessage)
    (tools : list (Tool W)) (systemMessage : string) : Async W AgentMessage :=
  match groq_client self with
  | None => throw (Error "Groq not initialized")
  | Some client =>
      let formattedMessages := formatChatMessages systemMessage msgs in
      let toolDefinitions := List.map chatToolDefinition tools in
      try_catch
        (do response <- groq_chat_completions_create client
             (chatRequest (ai_config self) formattedMessages
                (nonempty_or_undefined toolDefinitions));
         do message <- first_choice (gr_choices response);
         do rid <- lift (or_stamped (gr_id response) "groq-");
         do now <- lift Date_now;
         match gm_tool_calls message with
         | Some (tc :: tcs) =>
             do calls <- lift (parseGroqToolCalls (tc :: tcs));
             resolve {| id := rid; role := assistant;
                        content := or_string (gm_content message) "";
                        timestamp := now;
                        toolCalls := Some calls; toolResults := None |}
         | _ =>
             resolve {| id := rid; role := assistant;
                        content := or_string (gm_content message) "";
                        timestamp := now;
                        toolCalls := None; toolResults := None |}
         end)
        (fun error =>
           if is_tool_use_failed error then
             do fallbackResponse <- groq_chat_completions_create client
                  (chatRequest (ai_config self) formattedMessages None);
             do fallbackMessage <- first_choice (gr_choices fallbackResponse);
             do rid <- lift (or_stamped (gr_id fallbackResponse) "groq-");
             do now <- lift Date_now;
             resolve {| id := rid; role := assistant;
                        content := or_string (gm_content fallbackMessage) groq_apology;
                        timestamp := now;
                        toolCalls := None; toolResults := None |}
           else throw error)
  end.

(** The earlier revision of the Groq adapter
    ([src/backend/src/agent/AIProvider.ts]): no [try], and [JSON.parse]
    is not guarded. *)
Definition parseGroqToolCall_v1 (tc : GroqToolCall) (fn : GroqFunction)
  : Async W ToolCall :=
  do cid <- lift (or_stamped (gtc_id tc) "call-");
  match JSON_parse (or_string (gf_arguments fn) "{}") with
  | Resolved args =>
      resolve {| tc_id := cid; tc_name := or_string (gf_name fn) "";
                 tc_arguments := args |}
  | Rejected e => throw e
  end.

Fixpoint parseGroqToolCalls_v1 (tcs : list GroqToolCall) : Async W (list ToolCall) :=
  match tcs with
  | [] => resolve []
  | tc :: rest =>
      match gtc_function tc with
      | None => parseGroqToolCalls_v1 rest
      | Some fn =>
          do c <- parseGroqToolCall_v1 tc fn;
          do cs <- parseGroqToolCalls_v1 rest;
          resolve (c :: cs)
      end
  end.

Definition generateGroqResponse_v1 (self : AIProvider) (msgs : list AgentMessage)
    (tools : list (Tool W)) (systemMessage : string) : Async W AgentMessage :=
  match groq_client self with
  | None => throw (Error "Groq not initialized")
  | Some client =>
      let formattedMessages := formatChatMessages systemMessage msgs in
      let toolDefinitions := List.map chatToolDefinition tools in
      do response <- groq_chat_completions_create client
           (chatRequest (ai_config self) formattedMessages
              (nonempty_or_undefined toolDefinitions));
      do message <- first_choice (gr_choices response);
      do rid <- lift (or_stamped (gr_id response) "groq-");
      do now <- lift Date_now;
      match gm_tool_calls message with
      | Some (tc :: tcs) =>
          do calls <- parseGroqToolCalls_v1 (tc :: tcs);
          resolve {| id := rid; role := assistant;
                     content := or_string (gm_content message) "";
                     timestamp := now;
                     toolCalls := Some calls; toolResults := None |}
      | _ =>
          resolve {| id := rid; role := assistant;
                     content := or_string (gm_content message) "";
                     timestamp := now;
                     toolCalls := None; toolResults := None |}
      end
  end.

(** *** Ollama *)

Definition formatOllamaMessages (systemMessage : string) (msgs : list AgentMessage)
  : list OllamaMessage :=
  {| olm_role := system; olm_content := systemMessage |}
  :: List.map (fun m => {| olm_role := role m; olm_content := content m |}) msgs.

Definition generateOllamaResponse (self : AIProvider) (msgs : list AgentMessage)
    (_tools : list (Tool W)) (systemMessage : string) : Async W AgentMessage :=
  let baseUrl := or_string (process_env "OLLAMA_BASE_URL") "http://localhost:11434" in
  let formattedMessages := formatOllamaMessages systemMessage msgs in
  do response <- axios_post (baseUrl +:+ "/api/chat")
       {| oreq_model := model (ai_config self);
          oreq_messages := formattedMessages;
          oreq_stream := false;
          oreq_options_temperature := or_number (temperature (ai_config self)) 0.7%float |};
  do stamp <- lift Date_now;
  match data_message response with
  | None => throw (TypeError_undefined "content")
  | Some text =>
      do now <- lift Date_now;
      resolve {| id := "ollama-" +:+ pretty stamp; role := assistant;
                 content := text; timestamp := now;
                 toolCalls := None; toolResults := None |}
  end.

(** *** Dispatch *)

Definition generateResponse (self : AIProvider) (msgs : list AgentMessage)
    (tools : list (Tool W)) : Async W AgentMessage :=
  let systemMessage := or_string (systemPrompt (ai_config self)) defaultSystemPrompt in
  match provider (ai_config self) with
  | openai => generateOpenAIResponse self msgs tools systemMessage
  | anthropic => generateAnthropicResponse self msgs tools systemMessage
  | groq => generateGroqResponse self msgs tools systemMessage
  | ollama => generateOllamaResponse self msgs tools systemMessage
  | unsupported p => throw (Error ("Unsupported provider: " +:+ p))
  end.
End AIProviderDefs.

(** ** The agent: tool registry, conversation store and loop *)

Record Agent (W : Type) : Type := mkAgent {
  config : AgentConfig;
  aiProvider : AIProvider;
  tools : JsMap (Tool W);
  conversations : gmap string ConversationHistory
}.
Arguments mkAgent {W}.
Arguments config {W}.
Arguments aiProvider {W}.
Arguments tools {W}.
Arguments conversations {W}.

(** What one call of [processMessage] leaves behind: the settled promise and,
    for the record, the outcome of each [generateResponse] call it awaited, in
    order. *)
Record Run : Type := mkRun {
  outcome : Outcome AgentMessage;
  rounds : list (Outcome AgentMessage)
}.

Section AgentDefs.
Context {W : Type} `{Host W}.

Definition new_Agent (cfg : AgentConfig) : Outcome (Agent W) :=
  match new_AIProvider cfg with
  | Rejected e => Rejected e
  | Resolved p =>
      Resolved {| config := cfg; aiProvider := p; tools := []; conversations := ∅ |}
  end.

Definition registerTool (t : Tool W) (self : Agent W) : Agent W :=
  {| config := config self; aiProvider := aiProvider self;
     tools := map_set (name t) t (tools self);
     conversations := conversations self |}.

(** [tools.forEach((tool) => this.registerTool(tool))] *)
Definition registerTools (ts : list (Tool W)) (self : Agent W) : Agent W :=
  fold_left (fun a t => registerTool t a) ts self.

Definition set_conversations (c : gmap string ConversationHistory) (self : Agent W)
  : Agent W :=
  {| config := config self; aiProvider := aiProvider self;
     tools := tools self; conversations := c |}.

Definition getOrCreateConversation (sid : string) (uid : option string)
    (self : Agent W) : ConversationHistory * Agent W :=
  match conversations self !! sid with
  | Some h => (h, self)
  | None =>
      let h := {| messages := []; ch_sessionId := sid; ch_userId := uid;
                  metadata := None |} in
      (h, set_conversations (<[sid := h]> (conversations self)) self)
  end.

Definition getConversation (sid : string) (self : Agent W) : option ConversationHistory :=
  conversations self !! sid.

Definition clearConversation (sid : string) (self : Agent W) : Agent W :=
  set_conversations (delete sid (conversations self)) self.

Definition clearAllConversations (self : Agent W) : Agent W :=
  set_conversations ∅ self.

Definition StatusCallback : Type := option (string -> Async W unit).

Definition notify (cb : StatusCallback) (status : string) : Async W unit :=
  match cb with
  | Some f => f status
  | None => resolve tt
  end.

(** [executeTool] returns a [ToolResult] on every path: a missing tool
    and an exception of the callback or of the tool both become an error
    field. *)
Definition executeTool (self : Agent W) (toolCall : ToolCall) (context : ToolContext)
    (statusCallback : StatusCallback) : W -> ToolResult * W :=
  fun w =>
    match map_get (tc_name toolCall) (tools self) with
    | None =>
        ({| tr_id := tc_id toolCall; tr_name := tc_name toolCall;
            tr_result := JNull;
            tr_error := Some ("Tool '" +:+ tc_name toolCall +:+ "' not found") |}, w)
    | Some t =>
        match
          (do _ <- notify statusCallback
                ("🔧 Executing: "
                 +:+ or_string (Some (description t)) (tc_name toolCall) +:+ "...");
           execute t (tc_arguments toolCall) context) w
        with
        | (Resolved result, w') =>
            ({| tr_id := tc_id toolCall; tr_name := tc_name toolCall;
                tr_result := result; tr_error := None |}, w')
        | (Rejected error, w') =>
            ({| tr_id := tc_id toolCall; tr_name := tc_name toolCall;
                tr_result := JNull; tr_error := Some (message error) |}, w')
        end
    end.

(** [for (const toolCall of response.toolCalls) { ...await executeTool... }] *)
Fixpoint executeTools (self : Agent W) (calls : list ToolCall) (context : ToolContext)
    (statusCallback : StatusCallback) (w : W) : list ToolResult * W :=
  match calls with
  | [] => ([], w)
  | c :: cs =>
      let '(r, w1) := executeTool self c context statusCallback w in
      let '(rs, w2) := executeTools self cs context statusCallback w1 in
      (r :: rs, w2)
  end.

(** [toolResult.error || toolResult.result] *)
Definition error_or_result (r : ToolResult) : Json :=
  match tr_error r with
  | Some e => if String.eqb e "" then tr_result r else JStr e
  | None => tr_result r
  end.

Definition toolResultContent (r : ToolResult) : string :=
  match tr_result r with
  | JStr s => s
  | _ => JSON_stringify (error_or_result r)
  end.

Definition toolResultMessage (r : ToolResult) : W -> AgentMessage * W :=
  fun w =>
    let '(now, w') := Date_now w in
    ({| id := tr_id r; role := tool; content := toolResultContent r;
        timestamp := now; toolCalls := None; toolResults := Some [r] |}, w').

Definition maxIterations : nat := 20.

Definition limit_text : string :=
  "I apologize, but I reached the maximum number of processing steps. Please try rephrasing your request.".

(** The [while (iterations < maxIterations)] loop, with
    [remaining = maxIterations - iterations].  It returns the outcome, the
    messages of the history, and the outcomes of the model calls. *)
Fixpoint loop (remaining : nat) (self : Agent W) (context : ToolContext)
    (statusCallback : StatusCallback) (history : list AgentMessage) (w : W)
  : Run * list AgentMessage * W :=
  match remaining with
  | O =>
      let '(mid, w1) := nanoid w in
      let '(now, w2) := Date_now w1 in
      ({| outcome := Resolved {| id := mid; role := assistant; content := limit_text;
                                 timestamp := now; toolCalls := None;
                                 toolResults := None |};
          rounds := [] |}, history, w2)
  | S remaining' =>
      match generateResponse (aiProvider self) history (map_values (tools self)) w with
      | (Rejected e, w1) =>
          ({| outcome := Rejected e; rounds := [Rejected e] |}, history, w1)
      | (Resolved response, w1) =>
          let history1 := history ++ [response] in
          match toolCalls response with
          | Some (c :: cs) =>
              let '(toolResults, w2) :=
                executeTools self (c :: cs) context statusCallback w1 in
              let '(toolMessages, w3) := mapW toolResultMessage toolResults w2 in
              let '(run, history2, w4) :=
                loop remaining' self context statusCallback
                     (history1 ++ toolMessages) w3 in
              ({| outcome := outcome run;
                  rounds := Resolved response :: rounds run |}, history2, w4)
          | _ =>
              ({| outcome := Resolved response; rounds := [Resolved response] |},
               history1, w1)
          end
      end
  end.

(** [sessionId || nanoid()] *)
Definition resolveSessionId (sessionId : option string) : W -> string * W :=
  fun w =>
    match sessionId with
    | Some s => if String.eqb s "" then nanoid w else (s, w)
    | None => nanoid w
    end.

(** The history object is mutated in place while the loop runs; the store
    entry of the session is that object, so the store is written once
    with the final list of messages. *)
Definition processMessage (self : Agent W) (userMessage : string)
    (context : ToolContext) (sessionId : option string)
    (statusCallback : StatusCallback) : W -> Run * Agent W * W :=
  fun w =>
    let '(sid, w1) := resolveSessionId sessionId w in
    let '(history, self1) := getOrCreateConversation sid (userId context) self in
    let '(mid, w2) := nanoid w1 in
    let '(now, w3) := Date_now w2 in
    let userMsg := {| id := mid; role := user; content := userMessage;
                      timestamp := now; toolCalls := None; toolResults := None |} in
    let '(run, msgs, w4) :=
      loop maxIterations self1 context statusCallback
           (messages history ++ [userMsg]) w3 in
    (run,
     set_conversations
       (<[sid := {| messages := msgs; ch_sessionId := ch_sessionId history;
                    ch_userId := ch_userId history;
                    metadata := metadata history |}]> (conversations self1)) self1,
     w4).
End AgentDefs.

(** ** The POSIX [path] module of Node, as the file tools use it *)

Definition slash : ascii := "/"%char.

(** [s.split('/')] *)
Fixpoint split_slash (s : string) : list string :=
  match s with
  | EmptyString => [EmptyString]
  | String c s' =>
      if Ascii.eqb c slash then EmptyString :: split_slash s'
      else
        match split_slash s' with
        | seg :: rest => String c seg :: rest
        | [] => [String c EmptyString]
        end
  end.

(** [normalizeString]: the segments that remain, innermost first.  Empty
    segments and [.] are skipped; [..] removes the segment before it, and is
    kept only where the path may climb above its start. *)
Fixpoint normalize_segments (allowAboveRoot : bool) (stack : list string)
    (segs : list string) : list string :=
  match segs with
  | [] => stack
  | seg :: rest =>
      if String.eqb seg "" || String.eqb seg "." then
        normalize_segments allowAboveRoot stack rest
      else if String.eqb seg ".." then
        match stack with
        | top :: below =>
            if String.eqb top ".." then
              normalize_segments allowAboveRoot
                (if allowAboveRoot then seg :: stack else stack) rest
            else normalize_segments allowAboveRoot below rest
        | [] =>
            normalize_segments allowAboveRoot
              (if allowAboveRoot then [seg] else []) rest
        end
      else normalize_segments allowAboveRoot (seg :: stack) rest
  end.

Definition normalizeString (p : string) (allowAboveRoot : bool) : string :=
  String.concat "/" (rev (normalize_segments allowAboveRoot [] (split_slash p))).

Definition path_isAbsolute (p : string) : bool :=
  match p with
  | String c _ => Ascii.eqb c slash
  | EmptyString => false
  end.

Definition ends_with_slash (p : string) : bool :=
  match rev (list_ascii_of_string p) with
  | c :: _ => Ascii.eqb c slash
  | [] => false
  end.

Definition path_normalize (p : string) : string :=
  if String.eqb p "" then "."
  else
    let isAbsolute := path_isAbsolute p in
    let trailingSeparator := ends_with_slash p in
    let q := normalizeString p (negb isAbsolute) in
    if String.eqb q "" then
      if isAbsolute then "/" else if trailingSeparator then "./" else "."
    else
      let q' := if trailingSeparator then q +:+ "/" else q in
      if isAbsolute then "/" +:+ q' else q'.

(** [path.join(a, b)] *)
Definition path_join (a b : string) : string :=
  match String.eqb a "", String.eqb b "" with
  | true, true => "."
  | true, false => path_normalize b
  | false, true => path_normalize a
  | false, false => path_normalize (a +:+ "/" +:+ b)
  end.

(** [path.resolve(p)] in a process whose working directory is [cwd] (an
    absolute path). *)
Definition path_resolve (cwd : string) (p : string) : string :=
  let resolvedPath :=
    if String.eqb p "" then cwd +:+ "/"
    else if path_isAbsolute p then p +:+ "/"
    else cwd +:+ "/" +:+ p +:+ "/" in
  "/" +:+ normalizeString resolvedPath false.

(** [path.dirname(p)]: scan from the end for the last separator that
    follows a name. *)
Fixpoint dirname_end (chars_rev : list ascii) (i : nat) (matchedSlash : bool)
  : option nat :=
  match chars_rev, i with
  | c :: rest, S i' =>
      if Ascii.eqb c slash then
        if matchedSlash then dirname_end rest i' matchedSlash else Some i
      else dirname_end rest i' false
  | _, _ => None
  end.

Definition path_dirname (p : string) : string :=
  match p with
  | EmptyString => "."
  | String c0 p' =>
      let hasRoot := Ascii.eqb c0 slash in
      match dirname_end (rev (list_ascii_of_string p')) (String.length p') true with
      | None => if hasRoot then "/" else "."
      | Some e => if hasRoot && Nat.eqb e 1 then "//" else String.substring 0 e p
      end
  end.

(** ** The file tools ([FileSystemTool.ts]) *)

Definition newline : string := String (ascii_of_nat 10) EmptyString.

Section FileSystemDefs.
Context {W : Type} `{Host W}.

(** The [TypeError] of [path] functions on an argument that is not a
    string. *)
Definition invalid_path_argument (v : option Json) : JsError :=
  {| message := path_argument_message v; status := None; error_code := None;
     code := Some "ERR_INVALID_ARG_TYPE" |}.

(** [const { k } = args]: destructuring [null] throws. *)
Definition destructure (k : string) (args : Json) : Outcome (option Json) :=
  match args with
  | JNull =>
      Rejected (Error ("Cannot destructure property '" +:+ k
                       +:+ "' of 'args' as it is null."))
  | _ => Resolved (json_get k args)
  end.

(** [context.workspaceRoot || process.cwd()] *)
Definition workspace_of (context : ToolContext) : string :=
  or_string (workspaceRoot context) process_cwd.

(** The first lines of both [execute] functions: the full path, and the
    containment test [resolvedPath.startsWith(resolvedWorkspace)]. *)
Definition fullPath_of (root filePath : string) : string :=
  if path_isAbsolute filePath then filePath else path_join root filePath.

Definition within_workspace (root filePath : string) : bool :=
  String.prefix (path_resolve process_cwd root)
                (path_resolve process_cwd (fullPath_of root filePath)).

Definition read_file_execute (args : Json) (context : ToolContext) : Async W Json :=
  match destructure "filePath" args with
  | Rejected e => throw e
  | Resolved arg =>
      let root := workspace_of context in
      try_catch
        (match arg with
         | Some (JStr filePath) =>
             let resolvedPath := path_resolve process_cwd (fullPath_of root filePath) in
             if negb (within_workspace root filePath) then
               resolve (JStr ("Error: Access denied. File must be within workspace: "
                              +:+ root))
             else
               do isFile <- fs_stat resolvedPath;
               if negb isFile then
                 resolve (JStr ("Error: " +:+ filePath +:+ " is not a file"))
               else
                 do text <- fs_readFile resolvedPath;
                 resolve (JStr ("File: " +:+ filePath +:+ newline +:+ newline
                                +:+ "Content:" +:+ newline +:+ text))
         | other => throw (invalid_path_argument other)
         end)
        (fun error =>
           if has_code error "ENOENT" then
             resolve (JStr ("Error: File not found: "
                            +:+ match arg with
                                | Some (JStr filePath) => filePath
                                | other => render_argument other
                                end))
           else resolve (JStr ("Error reading file: " +:+ message error)))
  end.

Definition FileSystemTool : Tool W :=
  {| name := "read_file";
     description := "Read the contents of a file from the workspace";
     parameters :=
       [ {| tp_name := "filePath"; tp_type := TString;
            tp_description :=
              "The path to the file to read (relative to workspace root)";
            tp_required := true; tp_enum := None |} ];
     execute := read_file_execute |}.

Definition write_file_execute (args : Json) (context : ToolContext) : Async W Json :=
  match destructure "filePath" args with
  | Rejected e => throw e
  | Resolved arg =>
      let data := json_get "content" args in
      let root := workspace_of context in
      try_catch
        (match arg with
         | Some (JStr filePath) =>
             let resolvedPath := path_resolve process_cwd (fullPath_of root filePath) in
             if negb (within_workspace root filePath) then
               resolve (JStr ("Error: Access denied. File must be within workspace: "
                              +:+ root))
             else
               do _ <- fs_mkdir (path_dirname resolvedPath);
               do _ <- fs_writeFile resolvedPath data;
               resolve (JStr ("✅ Successfully wrote to file: " +:+ filePath))
         | other => throw (invalid_path_argument other)
         end)
        (fun error => resolve (JStr ("Error writing file: " +:+ message error)))
  end.

Definition WriteFileTool : Tool W :=
  {| name := "write_file";
     description :=
       "Write content to a file in the workspace. Overwrites existing content.";
     parameters :=
       [ {| tp_name := "filePath"; tp_type := TString;
            tp_description :=
              "The path to the file to write (relative to workspace root)";
            tp_required := true; tp_enum := None |};
         {| tp_name := "content"; tp_type := TString;
            tp_description := "The content to write to the file";
            tp_required := true; tp_enum := None |} ];
     execute := write_file_execute |}.
End FileSystemDefs.

(** ** Vocabulary of the statements about the loop *)

(** A model call that resolved with at least one tool-invocation request. *)
Definition requests_tools (o : Outcome AgentMessage) : bool :=
  match o with
  | Resolved m => match toolCalls m with Some (_ :: _) => true | _ => false end
  | Rejected _ => false
  end.

(** [m] is the tool-role message that answers the request [c]. *)
Definition answers (c : ToolCall) (m : AgentMessage) : Prop :=
  role m = tool /\ id m = tc_id c /\
  exists r, toolResults m = Some [r] /\ tr_id r = tc_id c /\ tr_name r = tc_name c.

(** The shape of what one [processMessage] call appends after the user
    message: assistant turns, each followed by the answers to its requests,
    one per request and in the order of the requests; a turn without
    requests is the last one. *)
Inductive Turns : list AgentMessage -> Prop :=
| Turns_nil : Turns []
| Turns_final response :
    role response = assistant ->
    requests_tools (Resolved response) = false ->
    Turns [response]
| Turns_tools response calls toolMessages rest :
    role response = assistant ->
    toolCalls response = Some calls ->
    calls <> [] ->
    Forall2 answers calls toolMessages ->
    Turns rest ->
    Turns (response :: toolMessages ++ rest).

(** The user message that [processMessage] builds: its identifier and its
    timestamp are drawn after the session identifier is resolved. *)
Definition userMessage_of {W : Type} `{Host W} (text : string)
    (sessionId : option string) (w : W) : AgentMessage :=
  let w1 := (resolveSessionId sessionId w).2 in
  {| id := (nanoid w1).1; role := user; content := text;
     timestamp := (Date_now (nanoid w1).2).1;
     toolCalls := None; toolResults := None |}.





(** ** Vocabulary of the statements about requests and replies *)







(** The first request of the Groq adapter, and the request of its retry. *)
Definition groq_request {W : Type} `{Host W} (self : AIProvider)
    (msgs : list AgentMessage) (ts : list (Tool W)) (systemMessage : string)
  : ChatRequest :=
  chatRequest (ai_config self) (formatChatMessages systemMessage msgs)
    (nonempty_or_undefined (List.map chatToolDefinition ts)).

Definition groq_retry_request {W : Type} `{Host W} (self : AIProvider)
    (msgs : list AgentMessage) (systemMessage : string) : ChatRequest :=
  chatRequest (ai_config self) (formatChatMessages systemMessage msgs) None.

(** The request of the Anthropic adapter. *)
Definition anthropic_request {W : Type} `{Host W} (self : AIProvider)
    (msgs : list AgentMessage) (ts : list (Tool W)) (systemMessage : string)
  : AnthropicRequest :=
  {| ar_model := model (ai_config self);
     ar_max_tokens := or_int (maxTokens (ai_config self)) 2000;
     ar_system := systemMessage;
     ar_messages := List.map formatAnthropicMessage msgs;
     ar_tools := nonempty_or_undefined (List.map anthropicToolDefinition ts);
     ar_temperature := or_number (temperature (ai_config self)) 0.7%float |}.

(** The function call of a Groq reply read without the clock: defined when
    the call has a function, a non-empty identifier, and arguments that
    parse. *)
Definition groq_call_parsed {W : Type} `{Host W} (tc : GroqToolCall) : option ToolCall :=
  match gtc_function tc, gtc_id tc with
  | Some fn, Some cid =>
      match JSON_parse (or_string (gf_arguments fn) "{}") with
      | Resolved args =>
          Some {| tc_id := cid; tc_name := or_string (gf_name fn) "";
                  tc_arguments := args |}
      | Rejected _ => None
      end
  | _, _ => None
  end.

(** Every function call of the list carries a non-empty identifier. *)
Definition identified (tcs : list GroqToolCall) : Prop :=
  Forall (fun tc => exists cid, gtc_id tc = Some cid /\ cid <> "") tcs.

(** The text and the request of one block of an Anthropic reply. *)
Definition block_text (b : ContentBlock) : string :=
  match b with TextBlock t => t | _ => "" end.

Definition block_call (b : ContentBlock) : option ToolCall :=
  match b with
  | ToolUseBlock bid bname input =>
      Some {| tc_id := bid; tc_name := bname; tc_arguments := input |}
  | _ => None
  end.

(** ** A concrete host

    A small world on which the definitions run: a clock, a counter behind
    the id generator, a flat file table, and for each provider endpoint the
    list of replies it will give, in order.  It serves to exhibit concrete
    runs. *)
Module Sim.
Record World : Type := mkWorld {
  clock : Z;
  counter : nat;
  files : gmap string string;
  openai_script : list (Outcome OpenAIResponse);
  anthropic_script : list (Outcome AnthropicResponse);
  groq_script : list (Outcome GroqResponse);
  ollama_script : list (Outcome OllamaResponse);
  groq_requests : list ChatRequest
}.

Definition tick (w : World) : Z * World :=
  (clock w,
   mkWorld (clock w + 1) (counter w) (files w) (openai_script w)
           (anthropic_script w) (groq_script w) (ollama_script w)
           (groq_requests w)).

Definition fresh (w : World) : string * World :=
  ("id-" +:+ pretty (counter w),
   mkWorld (clock w) (S (counter w)) (files w) (openai_script w)
           (anthropic_script w) (groq_script w) (ollama_script w)
           (groq_requests w)).

Definition unreachable : JsError :=
  {| message := "connect ECONNREFUSED"; status := None; error_code := None;
     code := Some "ECONNREFUSED" |}.

Definition openai_call (_ : string) (_ : ChatRequest) : Async World OpenAIResponse :=
  fun w =>
    match openai_script w with
    | [] => (Rejected unreachable, w)
    | r :: rest =>
        (r, mkWorld (clock w) (counter w) (files w) rest (anthropic_script w)
                    (groq_script w) (ollama_script w) (groq_requests w))
    end.

Definition anthropic_call (_ : string) (_ : AnthropicRequest)
  : Async World AnthropicResponse :=
  fun w =>
    match anthropic_script w with
    | [] => (Rejected unreachable, w)
    | r :: rest =>
        (r, mkWorld (clock w) (counter w) (files w) (openai_script w) rest
                    (groq_script w) (ollama_script w) (groq_requests w))
    end.

Definition groq_call (_ : string) (req : ChatRequest) : Async World GroqResponse :=
  fun w =>
    match groq_script w with
    | [] =>
        (Rejected unreachable,
         mkWorld (clock w) (counter w) (files w) (openai_script w)
                 (anthropic_script w) [] (ollama_script w)
                 (groq_requests w ++ [req]))
    | r :: rest =>
        (r, mkWorld (clock w) (counter w) (files w) (openai_script w)
                    (anthropic_script w) rest (ollama_script w)
                    (groq_requests w ++ [req]))
    end.

Definition ollama_call (_ : string) (_ : OllamaRequest) : Async World OllamaResponse :=
  fun w =>
    match ollama_script w with
    | [] => (Rejected unreachable, w)
    | r :: rest =>
        (r, mkWorld (clock w) (counter w) (files w) (openai_script w)
                    (anthropic_script w) (groq_script w) rest (groq_requests w))
    end.

Definition enoent (p : string) : JsError :=
  {| message := "ENOENT: no such file or directory, open '" +:+ p +:+ "'";
     status := None; error_code := None; code := Some "ENOENT" |}.

Definition stat (p : string) : Async World bool :=
  fun w =>
    match files w !! p with
    | Some _ => (Resolved true, w)
    | None => (Rejected (enoent p), w)
    end.

Definition readFile (p : string) : Async World string :=
  fun w =>
    match files w !! p with
    | Some text => (Resolved text, w)
    | None => (Rejected (enoent p), w)
    end.

Definition writeFile (p : string) (data : option Json) : Async World unit :=
  fun w =>
    match data with
    | Some (JStr text) =>
        (Resolved tt,
         mkWorld (clock w) (counter w) (<[p := text]> (files w)) (openai_script w)
                 (anthropic_script w) (groq_script w) (ollama_script w)
                 (groq_requests w))
    | _ => (Rejected (Error "The data argument must be of type string"), w)
    end.

Definition quote : string := String (ascii_of_nat 34) EmptyString.

(** A stand-in for the JSON codec: it knows the empty object, and prints
    scalars. *)
Definition parse (s : string) : Outcome Json :=
  if String.eqb s "{}" then Resolved (JObj [])
  else Rejected (Error "Unexpected end of JSON input").

Definition stringify (j : Json) : string :=
  match j with
  | JNull => "null"
  | JBool true => "true"
  | JBool false => "false"
  | JNum _ => "0"
  | JStr s => quote +:+ s +:+ quote
  | JArr _ => "[]"
  | JObj _ => "{}"
  end.

Definition env (k : string) : option string :=
  if String.eqb k "OPENAI_API_KEY" then Some "sk-test"
  else if String.eqb k "ANTHROPIC_API_KEY" then Some "sk-ant-test"
  else if String.eqb k "GROQ_API_KEY" then Some "gsk-test"
  else None.

#[global] Instance host : Host World := {|
  Date_now := tick;
  nanoid := fresh;
  JSON_parse := parse;
  JSON_stringify := stringify;
  process_env := env;
  process_cwd := "/srv/backend";
  defaultSystemPrompt := "You are an expert DevOps AI assistant.";
  openai_chat_completions_create := openai_call;
  anthropic_messages_create := anthropic_call;
  groq_chat_completions_create := groq_call;
  axios_post := ollama_call;
  costTracker_trackRequest := fun _ _ _ _ _ w => w;
  fs_stat := stat;
  fs_readFile := readFile;
  fs_mkdir := fun _ w => (Resolved tt, w);
  fs_writeFile := writeFile;
  path_argument_message := fun _ => "The path argument must be of type string";
  render_argument := fun _ => "undefined"
|}.

Definition world0 : World :=
  mkWorld 1700000000000 0 ∅ [] [] [] [] [].

Definition with_files (fs : gmap string string) (w : World) : World :=
  mkWorld (clock w) (counter w) fs (openai_script w) (anthropic_script w)
          (groq_script w) (ollama_script w) (groq_requests w).

Definition with_groq (script : list (Outcome GroqResponse)) (w : World) : World :=
  mkWorld (clock w) (counter w) (files w) (openai_script w) (anthropic_script w)
          script (ollama_script w) (groq_requests w).

Definition with_openai (script : list (Outcome OpenAIResponse)) (w : World) : World :=
  mkWorld (clock w) (counter w) (files w) script (anthropic_script w)
          (groq_script w) (ollama_script w) (groq_requests w).

Definition with_ollama (script : list (Outcome OllamaResponse)) (w : World) : World :=
  mkWorld (clock w) (counter w) (files w) (openai_script w) (anthropic_script w)
          (groq_script w) script (groq_requests w).

Definition config_of (p : Provider) : AgentConfig :=
  {| provider := p; model := "test-model"; temperature := None;
     maxTokens := None; systemPrompt := None |}.

Definition context0 : ToolContext :=
  {| workspaceRoot := Some "/workspace"; currentFile := None; userId := None;
     sessionId := "s1" |}.

(** A tool that echoes, and one that always throws. *)
Definition echo : Tool World :=
  {| name := "echo"; description := "Echo"; parameters := [];
     execute := fun _ _ w => (Resolved (JStr "ok"), w) |}.

Definition boom : Tool World :=
  {| name := "boom"; description := "Fails"; parameters := [];
     execute := fun _ _ w => (Rejected (Error "kaboom"), w) |}.

(** The agent of provider [p], as its constructor builds it, with the
    given tools registered. *)
Definition agent_of (p : Provider) (ts : list (Tool World)) : Agent World :=
  match new_Agent (config_of p) with
  | Resolved a => registerTools ts a
  | Rejected _ =>
      {| config := config_of p; aiProvider := mkAIProvider (config_of p) None None None;
         tools := []; conversations := ∅ |}
  end.
End Sim.

(** ** Sample inputs

    Concrete providers, worlds, tools and histories on the host [Sim.host],
    used where a statement is shown on a run. *)


(** The provider's rejection of a request for which it could not form a tool
    call. *)
Definition tool_use_failed : JsError :=
  {| message := "Failed to call a function. Please adjust your prompt.";
     status := Some 400; error_code := Some "tool_use_failed"; code := None |}.

Definition groq_provider : AIProvider :=
  mkAIProvider (Sim.config_of groq) None None (Some "gsk-test").

Definition openai_provider : AIProvider :=
  mkAIProvider (Sim.config_of openai) (Some "sk-test") None None.

(** A Groq endpoint that rejects the first request with [tool_use_failed]
    and answers the second with an empty text. *)
Definition groq_failing_world : Sim.World :=
  Sim.with_groq
    [ Rejected tool_use_failed;
      Resolved {| gr_id := Some "chatcmpl-2";
                  gr_choices := [ {| gm_content := None; gm_tool_calls := None |} ] |} ]
    Sim.world0.

(** An OpenAI reply with two function calls, the second with arguments that
    are not JSON. *)
Definition openai_bad_arguments_world : Sim.World :=
  Sim.with_openai
    [ Resolved
        {| or_id := "chatcmpl-1";
           or_choices :=
             [ {| om_content := None;
                  om_tool_calls :=
                    Some [ {| otc_id := "call_1";
                              otc_function := {| fn_name := "echo";
                                                 fn_arguments := "{}" |} |};
                           {| otc_id := "call_2";
                              otc_function := {| fn_name := "echo";
                                                 fn_arguments := "{" |} |} ] |} ];
           or_usage := None |} ]
    Sim.world0.

(** A second descriptor under the name of [Sim.echo]. *)
Definition echo_v2 : Tool Sim.World :=
  {| name := "echo"; description := "Echo, second version"; parameters := [];
     execute := fun _ _ w => (Resolved (JStr "ok v2"), w) |}.

(** An Ollama endpoint with one reply ready. *)
Definition ollama_world : Sim.World :=
  Sim.with_ollama [ Resolved {| data_message := Some "Hello." |} ] Sim.world0.

(** A file outside the workspace [/workspace], in a directory whose name
    extends the name of the workspace. *)
Definition sibling_world : Sim.World :=
  Sim.with_files (<["/workspaceX/secret.txt" := "TOP SECRET"]> ∅) Sim.world0.

Definition sibling_args : Json := JObj [("filePath", JStr "/workspaceX/secret.txt")].

(** A Groq reply that asks for one run of [echo]. *)
Definition groq_tool_reply : Outcome GroqResponse :=
  Resolved {| gr_id := Some "chatcmpl-tool";
              gr_choices :=
                [ {| gm_content := None;
                     gm_tool_calls :=
                       Some [ {| gtc_id := Some "call_1";
                                 gtc_function :=
                                   Some {| gf_name := Some "echo";
                                           gf_arguments := Some "{}" |} |} ] |} ] |}.

(** A Groq endpoint that asks for a tool in each of its next twenty
    replies. *)
Definition groq_insistent_world : Sim.World :=
  Sim.with_groq (List.repeat groq_tool_reply 20) Sim.world0.

(** A batch of four requests: the second tool throws, the third does not
    exist. *)
Definition mixed_batch : list ToolCall :=
  [ {| tc_id := "call_a"; tc_name := "echo"; tc_arguments := JObj [] |};
    {| tc_id := "call_b"; tc_name := "boom"; tc_arguments := JObj [] |};
    {| tc_id := "call_c"; tc_name := "nonexistent_tool"; tc_arguments := JObj [] |};
    {| tc_id := "call_d"; tc_name := "echo"; tc_arguments := JObj [] |} ].

(** A status callback that throws. *)
Definition failing_callback : @StatusCallback Sim.World :=
  Some (fun _ w => (Rejected (Error "socket closed"), w)).

(** A tool that records its run in the file table. *)
Definition marker : Tool Sim.World :=
  {| name := "marker"; description := "Leaves a mark"; parameters := [];
     execute := fun _ _ w =>
       (Resolved JNull, Sim.with_files (<["/mark" := "ran"]> (Sim.files w)) w) |}.

Definition marker_call : ToolCall :=
  {| tc_id := "call_m"; tc_name := "marker"; tc_arguments := JObj [] |}.

(** A Groq reply with three function calls; the arguments of the second
    are not JSON. *)
Definition groq_mixed_calls : list GroqToolCall :=
  [ {| gtc_id := Some "call_1";
       gtc_function := Some {| gf_name := Some "echo"; gf_arguments := Some "{}" |} |};
    {| gtc_id := Some "call_2";
       gtc_function := Some {| gf_name := Some "echo"; gf_arguments := Some "{" |} |};
    {| gtc_id := Some "call_3";
       gtc_function := Some {| gf_name := Some "boom"; gf_arguments := None |} |} ].

Definition groq_mixed_world : Sim.World :=
  Sim.with_groq
    [ Resolved {| gr_id := Some "chatcmpl-3";
                  gr_choices := [ {| gm_content := Some "Working on it.";
                                     gm_tool_calls := Some groq_mixed_calls |} ] |} ]
    Sim.world0.

(** An Anthropic reply with text around one [tool_use] block. *)
Definition anthropic_blocks : list ContentBlock :=
  [ TextBlock "Let me look. ";
    ToolUseBlock "toolu_1" "echo" (JObj []);
    OtherBlock "thinking";
    TextBlock "Done." ].

(** An Anthropic endpoint with one reply ready. *)
Definition anthropic_provider : AIProvider :=
  mkAIProvider (Sim.config_of anthropic) None (Some "sk-ant-test") None.

Definition anthropic_world : Sim.World :=
  Sim.mkWorld 1700000000000 0 ∅ []
    [ Resolved {| ares_id := "msg_01"; ares_content := anthropic_blocks |} ] [] [] [].

(** A parameter list that declares [path] twice. *)
Definition duplicate_parameters : list ToolParameter :=
  [ {| tp_name := "path"; tp_type := TString; tp_description := "first";
       tp_required := true; tp_enum := None |};
    {| tp_name := "tags"; tp_type := TArray; tp_description := "labels";
       tp_required := false; tp_enum := None |};
    {| tp_name := "path"; tp_type := TNumber; tp_description := "second";
       tp_required := false; tp_enum := Some ["a"; "b"] |} ].

(** The agent after a first exchange on session [s1]. *)
Definition agent_after_hello : Agent Sim.World :=
  (processMessage (Sim.agent_of ollama []) "hi" Sim.context0 (Some "s1") None
     ollama_world).1.2.


(** * Properties *)

(** ** The insertion-ordered map *)

Section JsMapFacts.
Context {V : Type}.
Implicit Types (k : string) (v : V) (m : JsMap V).

Lemma map_get_set_eq k v m : map_get k (map_set k v m) = Some v.
Proof.
  unfold map_get. induction m as [|[k' v'] m IH]; simpl.
  - by rewrite String.eqb_refl.
  - destruct (String.eqb k' k) eqn:E; simpl.
    + by rewrite String.eqb_refl.
    + by rewrite E.
Qed.

Lemma map_get_set_ne k k' v m : k <> k' -> map_get k' (map_set k v m) = map_get k' m.
Proof.
  intros Hne. unfold map_get. induction m as [|[k0 v0] m IH]; simpl.
  - destruct (String.eqb_spec k k'); [done | reflexivity].
  - destruct (String.eqb_spec k0 k) as [->|Hk]; simpl.
    + destruct (String.eqb_spec k k'); [done | reflexivity].
    + by rewrite IH.
Qed.

Lemma map_get_Some_keys k v m : map_get k m = Some v -> k ∈ map_keys m.
Proof.
  unfold map_get, map_keys. induction m as [|[k0 v0] m IH]; simpl; [done |].
  destruct (String.eqb_spec k0 k) as [->|Hk]; intros Hg.
  - apply elem_of_cons. by left.
  - apply elem_of_cons. right. by apply IH.
Qed.

Lemma map_get_None_keys k m : map_get k m = None <-> k ∉ map_keys m.
Proof.
  unfold map_get, map_keys. induction m as [|[k0 v0] m IH]; simpl.
  - split; [intros _; apply not_elem_of_nil | done].
  - rewrite not_elem_of_cons. destruct (String.eqb_spec k0 k) as [->|Hk].
    + split; [done | intros [? _]; done].
    + rewrite IH. split; [intros ?; split; [congruence | done] | intros [_ ?]; done].
Qed.

Lemma map_keys_set_present k v m :
  k ∈ map_keys m -> map_keys (map_set k v m) = map_keys m.
Proof.
  unfold map_keys. induction m as [|[k0 v0] m IH]; simpl.
  - intros Hin. by apply elem_of_nil in Hin.
  - intros Hin. destruct (String.eqb_spec k0 k) as [->|Hk]; simpl; [done |].
    f_equal. apply IH. apply elem_of_cons in Hin as [->|Hin]; [done | done].
Qed.

Lemma map_keys_set_absent k v m :
  k ∉ map_keys m -> map_keys (map_set k v m) = map_keys m ++ [k].
Proof.
  unfold map_keys. induction m as [|[k0 v0] m IH]; simpl; [done |].
  intros Hin. apply not_elem_of_cons in Hin as [Hne Hin].
  destruct (String.eqb_spec k0 k) as [->|Hk]; simpl; [done |].
  f_equal. by apply IH.
Qed.

Lemma map_set_NoDup k v m : NoDup (map_keys m) -> NoDup (map_keys (map_set k v m)).
Proof.
  intros Hnd. destruct (decide (k ∈ map_keys m)) as [Hin|Hin].
  - by rewrite map_keys_set_present.
  - rewrite map_keys_set_absent by done.
    apply NoDup_app. split; [done |]. split; [| apply NoDup_singleton].
    intros x Hx Hx'. apply list_elem_of_singleton in Hx'. by subst.
Qed.

Lemma entries_under_absent k m : k ∉ map_keys m -> entries_under k m = 0%nat.
Proof.
  unfold entries_under, map_keys. induction m as [|[k0 v0] m IH]; simpl; [done |].
  intros Hin. apply not_elem_of_cons in Hin as [Hne Hin].
  destruct (String.eqb_spec k0 k) as [->|Hk]; simpl; [done | by apply IH].
Qed.

Lemma entries_under_NoDup k m :
  NoDup (map_keys m) -> k ∈ map_keys m -> entries_under k m = 1%nat.
Proof.
  unfold entries_under, map_keys. induction m as [|[k0 v0] m IH]; simpl.
  - intros _ Hin. by apply elem_of_nil in Hin.
  - intros Hnd Hin. apply NoDup_cons in Hnd as [Hk0 Hnd].
    destruct (String.eqb_spec k0 k) as [->|Hk]; simpl.
    + f_equal. by apply (entries_under_absent k m).
    + apply IH; [done |]. apply elem_of_cons in Hin as [->|Hin]; done.
Qed.

Lemma map_set_keys_elem k v m : k ∈ map_keys (map_set k v m).
Proof. eapply map_get_Some_keys. apply map_get_set_eq. Qed.

Lemma map_set_set k v1 v2 m : map_set k v2 (map_set k v1 m) = map_set k v2 m.
Proof.
  induction m as [|[k0 v0] m IH]; simpl.
  - by rewrite String.eqb_refl.
  - destruct (String.eqb_spec k0 k) as [->|Hk]; simpl.
    + by rewrite String.eqb_refl.
    + destruct (String.eqb_spec k0 k); [done | by rewrite IH].
Qed.
End JsMapFacts.

(** ** The tool registry and the conversation store *)

Section RegistryFacts.
Context {W : Type} `{Host W}.
Implicit Types (self : Agent W) (t : Tool W).

Lemma registerTool_get t self : map_get (name t) (tools (registerTool t self)) = Some t.
Proof. apply map_get_set_eq. Qed.

Lemma registerTool_get_other t self k :
  name t <> k -> map_get k (tools (registerTool t self)) = map_get k (tools self).
Proof. apply map_get_set_ne. Qed.

Lemma registerTool_NoDup t self :
  NoDup (map_keys (tools self)) -> NoDup (map_keys (tools (registerTool t self))).
Proof. apply map_set_NoDup. Qed.

Lemma registerTools_cons t ts self :
  registerTools (t :: ts) self = registerTools ts (registerTool t self).
Proof. reflexivity. Qed.

Lemma registerTools_app ts1 ts2 self :
  registerTools (ts1 ++ ts2) self = registerTools ts2 (registerTools ts1 self).
Proof. unfold registerTools. apply fold_left_app. Qed.

Lemma registerTools_NoDup ts self :
  NoDup (map_keys (tools self)) -> NoDup (map_keys (tools (registerTools ts self))).
Proof.
  revert self. induction ts as [|t ts IH]; intros self Hnd; [done |].
  rewrite registerTools_cons. apply IH. by apply registerTool_NoDup.
Qed.

(** C8: registering two descriptors of the same name, one after the other,
    leaves one entry under that name, the second descriptor; registration
    is a total function (it cannot raise), and [registerTools] is the
    sequence of [registerTool] calls in list order. *)
Theorem registry_overwrite t1 t2 self :
  NoDup (map_keys (tools self)) ->
  name t1 = name t2 ->
  let self' := registerTool t2 (registerTool t1 self) in
  map_get (name t2) (tools self') = Some t2
  /\ entries_under (name t2) (tools self') = 1%nat
  /\ registerTools [t1; t2] self = self'
  /\ (forall t ts a, registerTools (t :: ts) a = registerTools ts (registerTool t a))
  /\ (forall a : Agent W, registerTools [] a = a).
Proof.
  intros Hnd Hname self'. split; [apply registerTool_get |].
  split; [| done].
  apply entries_under_NoDup.
  - subst self'. by do 2 apply registerTool_NoDup.
  - apply map_set_keys_elem.
Qed.
End RegistryFacts.

(** ** The model adapter returns assistant messages *)

Ltac destruct_step :=
  match goal with
  | H : context [match ?x with _ => _ end] |- _ =>
      first [ is_var x; destruct x | destruct x eqn:? ]
  | H : (_, _) = (_, _) |- _ => inversion H; clear H; subst
  | H : Resolved _ = Resolved _ |- _ => inversion H; clear H; subst
  | H : Rejected _ = Resolved _ |- _ => discriminate H
  | H : Resolved _ = Rejected _ |- _ => discriminate H
  end.

Ltac unfold_async :=
  unfold bind, lift, resolve, throw, try_catch, first_choice in *.

Section AdapterShape.
Context {W : Type} `{Host W}.
Implicit Types (self : AIProvider) (msgs : list AgentMessage) (ts : list (Tool W)).

Lemma generateOpenAIResponse_assistant self msgs ts sys w m w' :
  generateOpenAIResponse self msgs ts sys w = (Resolved m, w') ->
  role m = assistant /\ toolResults m = None.
Proof.
  unfold generateOpenAIResponse, trackUsage. unfold_async. intros Hr.
  repeat (destruct_step; simpl in *; try done).
Qed.

Lemma generateAnthropicResponse_assistant self msgs ts sys w m w' :
  generateAnthropicResponse self msgs ts sys w = (Resolved m, w') ->
  role m = assistant /\ toolResults m = None.
Proof.
  unfold generateAnthropicResponse. unfold_async. intros Hr.
  repeat (destruct_step; simpl in *; try done).
Qed.

Lemma generateGroqResponse_assistant self msgs ts sys w m w' :
  generateGroqResponse self msgs ts sys w = (Resolved m, w') ->
  role m = assistant /\ toolResults m = None.
Proof.
  unfold generateGroqResponse. unfold_async. intros Hr.
  repeat (destruct_step; simpl in *; try done).
Qed.

Lemma generateOllamaResponse_assistant self msgs ts sys w m w' :
  generateOllamaResponse self msgs ts sys w = (Resolved m, w') ->
  role m = assistant /\ toolResults m = None /\ toolCalls m = None.
Proof.
  unfold generateOllamaResponse. unfold_async. intros Hr.
  repeat (destruct_step; simpl in *; try done).
Qed.

Lemma generateResponse_assistant self msgs ts w m w' :
  generateResponse self msgs ts w = (Resolved m, w') ->
  role m = assistant /\ toolResults m = None.
Proof.
  unfold generateResponse. destruct (provider (ai_config self)); intros Hr.
  - by eapply generateOpenAIResponse_assistant.
  - by eapply generateAnthropicResponse_assistant.
  - by eapply generateGroqResponse_assistant.
  - apply generateOllamaResponse_assistant in Hr. tauto.
  - discriminate Hr.
Qed.
End AdapterShape.

(** ** Tool execution *)

Section ToolFacts.
Context {W : Type} `{Host W}.
Implicit Types (self : Agent W) (c : ToolCall) (ctx : ToolContext) (w : W).

Lemma executeTool_correlated self c ctx cb w :
  tr_id (executeTool self c ctx cb w).1 = tc_id c
  /\ tr_name (executeTool self c ctx cb w).1 = tc_name c.
Proof.
  unfold executeTool. destruct (map_get _ _); [| done].
  destruct (bind _ _ w) as [[result|e] w']; done.
Qed.

Lemma executeTool_not_found self c ctx cb w :
  map_get (tc_name c) (tools self) = None ->
  executeTool self c ctx cb w =
    ({| tr_id := tc_id c; tr_name := tc_name c; tr_result := JNull;
        tr_error := Some ("Tool '" +:+ tc_name c +:+ "' not found") |}, w).
Proof. unfold executeTool. by intros ->. Qed.

(** Without a status callback the outcome of [execute] decides the
    result. *)
Lemma executeTool_resolved self c ctx w t result w' :
  map_get (tc_name c) (tools self) = Some t ->
  execute t (tc_arguments c) ctx w = (Resolved result, w') ->
  executeTool self c ctx None w =
    ({| tr_id := tc_id c; tr_name := tc_name c; tr_result := result;
        tr_error := None |}, w').
Proof. unfold executeTool, notify, bind, resolve. by intros -> ->. Qed.

Lemma executeTool_rejected self c ctx w t e w' :
  map_get (tc_name c) (tools self) = Some t ->
  execute t (tc_arguments c) ctx w = (Rejected e, w') ->
  executeTool self c ctx None w =
    ({| tr_id := tc_id c; tr_name := tc_name c; tr_result := JNull;
        tr_error := Some (message e) |}, w').
Proof. unfold executeTool, notify, bind, resolve. by intros -> ->. Qed.

Lemma executeTools_app self cs1 cs2 ctx cb w :
  executeTools self (cs1 ++ cs2) ctx cb w =
    let '(rs1, w1) := executeTools self cs1 ctx cb w in
    let '(rs2, w2) := executeTools self cs2 ctx cb w1 in
    (rs1 ++ rs2, w2).
Proof.
  revert w. induction cs1 as [|c cs1 IH]; intros w; simpl.
  - by destruct (executeTools self cs2 ctx cb w).
  - destruct (executeTool self c ctx cb w) as [r w1]. rewrite IH.
    destruct (executeTools self cs1 ctx cb w1) as [rs1 w2].
    by destruct (executeTools self cs2 ctx cb w2).
Qed.

Lemma executeTools_correlated self cs ctx cb w :
  Forall2 (fun c r => tr_id r = tc_id c /\ tr_name r = tc_name c)
          cs (executeTools self cs ctx cb w).1.
Proof.
  revert w. induction cs as [|c cs IH]; intros w; simpl; [constructor |].
  pose proof (executeTool_correlated self c ctx cb w) as Hc.
  destruct (executeTool self c ctx cb w) as [r w1].
  specialize (IH w1). destruct (executeTools self cs ctx cb w1) as [rs w2].
  by constructor.
Qed.

Lemma executeTools_length self cs ctx cb w :
  length (executeTools self cs ctx cb w).1 = length cs.
Proof. symmetry. eapply Forall2_length, executeTools_correlated. Qed.

Lemma toolResultMessages_shape (rs : list ToolResult) w :
  Forall2 (fun r m => role m = tool /\ id m = tr_id r /\ toolResults m = Some [r]
                      /\ content m = toolResultContent r /\ toolCalls m = None)
          rs (mapW toolResultMessage rs w).1.
Proof.
  revert w. induction rs as [|r rs IH]; intros w; simpl; [constructor |].
  unfold toolResultMessage at 1. destruct (Date_now w) as [now w1].
  specialize (IH w1). destruct (mapW toolResultMessage rs w1) as [ms w2].
  by constructor.
Qed.

Lemma batch_answers self cs ctx cb w :
  Forall2 answers cs
    (mapW toolResultMessage (executeTools self cs ctx cb w).1
                            (executeTools self cs ctx cb w).2).1.
Proof.
  pose proof (executeTools_correlated self cs ctx cb w) as Hc.
  destruct (executeTools self cs ctx cb w) as [rs w1]; simpl in *.
  pose proof (toolResultMessages_shape rs w1) as Hm.
  revert Hm. generalize (mapW toolResultMessage rs w1).1. intros ms Hm.
  revert ms Hm. induction Hc as [|c r cs rs [Hid Hname] Hc IH]; intros ms Hm.
  - inversion Hm. constructor.
  - inversion Hm as [|? m ? ms' (Hr & Hi & Htr & _) Hm']; subst.
    constructor; [| by apply IH].
    split; [done |]. split; [congruence |]. by exists r.
Qed.
End ToolFacts.

(** ** The orchestration loop *)

Section LoopFacts.
Context {W : Type} `{Host W}.
Implicit Types (self : Agent W) (ctx : ToolContext) (w : W)
  (history : list AgentMessage) (n : nat) (cb : @StatusCallback W).

Lemma loop_S n self ctx cb history w :
  loop (S n) self ctx cb history w =
    match generateResponse (aiProvider self) history (map_values (tools self)) w with
    | (Rejected e, w1) =>
        ({| outcome := Rejected e; rounds := [Rejected e] |}, history, w1)
    | (Resolved response, w1) =>
        let history1 := history ++ [response] in
        match toolCalls response with
        | Some (c :: cs) =>
            let '(toolResults, w2) := executeTools self (c :: cs) ctx cb w1 in
            let '(toolMessages, w3) := mapW toolResultMessage toolResults w2 in
            let '(run, history2, w4) :=
              loop n self ctx cb (history1 ++ toolMessages) w3 in
            ({| outcome := outcome run;
                rounds := Resolved response :: rounds run |}, history2, w4)
        | _ =>
            ({| outcome := Resolved response; rounds := [Resolved response] |},
             history1, w1)
        end
    end.
Proof. reflexivity. Qed.

(** A round whose response carries requests runs the whole batch, appends
    the response and the answers, and enters the next round. *)
Lemma loop_round_with_tools n self ctx cb history w response w1 c cs :
  generateResponse (aiProvider self) history (map_values (tools self)) w
    = (Resolved response, w1) ->
  toolCalls response = Some (c :: cs) ->
  let batch := executeTools self (c :: cs) ctx cb w1 in
  let answersW := mapW toolResultMessage batch.1 batch.2 in
  let next := loop n self ctx cb (history ++ [response] ++ answersW.1) answersW.2 in
  loop (S n) self ctx cb history w =
    ({| outcome := outcome next.1.1;
        rounds := Resolved response :: rounds next.1.1 |}, next.1.2, next.2).
Proof.
  intros Hg Htc. cbn zeta. rewrite loop_S, Hg, Htc. cbn zeta.
  destruct (executeTools self (c :: cs) ctx cb w1) as [rs w2]. cbn [fst snd].
  destruct (mapW toolResultMessage rs w2) as [ms w3]. cbn [fst snd].
  rewrite <- (app_assoc history [response] ms).
  by destruct (loop n self ctx cb (history ++ [response] ++ ms) w3) as [[run h2] w4].
Qed.

Lemma loop_round_final n self ctx cb history w response w1 :
  generateResponse (aiProvider self) history (map_values (tools self)) w
    = (Resolved response, w1) ->
  requests_tools (Resolved response) = false ->
  loop (S n) self ctx cb history w =
    ({| outcome := Resolved response; rounds := [Resolved response] |},
     history ++ [response], w1).
Proof.
  intros Hg Htc. rewrite loop_S, Hg. cbn [requests_tools] in Htc. cbn zeta.
  destruct (toolCalls response) as [[|c cs]|]; done.
Qed.

Lemma loop_round_rejected n self ctx cb history w e w1 :
  generateResponse (aiProvider self) history (map_values (tools self)) w
    = (Rejected e, w1) ->
  loop (S n) self ctx cb history w =
    ({| outcome := Rejected e; rounds := [Rejected e] |}, history, w1).
Proof. intros Hg. by rewrite loop_S, Hg. Qed.

Lemma loop_exhausted self ctx cb history w :
  loop 0 self ctx cb history w =
    ({| outcome := Resolved {| id := (nanoid w).1; role := assistant;
                               content := limit_text;
                               timestamp := (Date_now (nanoid w).2).1;
                               toolCalls := None; toolResults := None |};
        rounds := [] |}, history, (Date_now (nanoid w).2).2).
Proof.
  simpl. destruct (nanoid w) as [mid w1]. simpl.
  by destruct (Date_now w1) as [now w2].
Qed.

(** Case analysis on one round of the loop. *)
Lemma loop_cases n self ctx cb history w :
  (exists e w1,
      generateResponse (aiProvider self) history (map_values (tools self)) w
        = (Rejected e, w1))
  \/ (exists response w1,
      generateResponse (aiProvider self) history (map_values (tools self)) w
        = (Resolved response, w1)
      /\ requests_tools (Resolved response) = false)
  \/ (exists response w1 c cs,
      generateResponse (aiProvider self) history (map_values (tools self)) w
        = (Resolved response, w1)
      /\ toolCalls response = Some (c :: cs)).
Proof.
  destruct (generateResponse _ _ _ w) as [[response|e] w1] eqn:Hg.
  - destruct (toolCalls response) as [[|c cs]|] eqn:Htc.
    + right; left. exists response, w1. cbn [requests_tools]. by rewrite Htc.
    + right; right. by exists response, w1, c, cs.
    + right; left. exists response, w1. cbn [requests_tools]. by rewrite Htc.
  - left. by exists e, w1.
Qed.

Lemma loop_rounds_bound n self ctx cb history w :
  (length (rounds (loop n self ctx cb history w).1.1) <= n)%nat.
Proof.
  revert history w. induction n as [|n IH]; intros history w.
  - by rewrite loop_exhausted.
  - destruct (loop_cases n self ctx cb history w)
      as [(e & w1 & Hg)|[(r & w1 & Hg & Hf)|(r & w1 & c & cs & Hg & Htc)]].
    + rewrite (loop_round_rejected _ _ _ _ _ _ _ _ Hg). simpl. lia.
    + rewrite (loop_round_final _ _ _ _ _ _ _ _ Hg Hf). simpl. lia.
    + rewrite (loop_round_with_tools _ _ _ _ _ _ _ _ _ _ Hg Htc). simpl.
      match goal with |- context [loop n self ctx cb ?h ?w'] =>
        specialize (IH h w') end. lia.
Qed.

Lemma loop_rounds_nonempty n self ctx cb history w :
  (1 <= length (rounds (loop (S n) self ctx cb history w).1.1))%nat.
Proof.
  destruct (loop_cases n self ctx cb history w)
    as [(e & w1 & Hg)|[(r & w1 & Hg & Hf)|(r & w1 & c & cs & Hg & Htc)]].
  - rewrite (loop_round_rejected _ _ _ _ _ _ _ _ Hg). simpl. lia.
  - rewrite (loop_round_final _ _ _ _ _ _ _ _ Hg Hf). simpl. lia.
  - rewrite (loop_round_with_tools _ _ _ _ _ _ _ _ _ _ Hg Htc). simpl. lia.
Qed.

(** When every round asked for tools the loop used all its rounds and
    ended with the synthesized message. *)
Lemma loop_all_tools n self ctx cb history w :
  forallb requests_tools (rounds (loop n self ctx cb history w).1.1) = true ->
  length (rounds (loop n self ctx cb history w).1.1) = n
  /\ exists mid now,
      outcome (loop n self ctx cb history w).1.1 =
        Resolved {| id := mid; role := assistant; content := limit_text;
                    timestamp := now; toolCalls := None; toolResults := None |}.
Proof.
  revert history w. induction n as [|n IH]; intros history w.
  - rewrite loop_exhausted. simpl. intros _. split; [done | eauto].
  - destruct (loop_cases n self ctx cb history w)
      as [(e & w1 & Hg)|[(r & w1 & Hg & Hf)|(r & w1 & c & cs & Hg & Htc)]].
    + rewrite (loop_round_rejected _ _ _ _ _ _ _ _ Hg). simpl. done.
    + rewrite (loop_round_final _ _ _ _ _ _ _ _ Hg Hf).
      cbn [fst snd rounds forallb]. rewrite Hf. done.
    + rewrite (loop_round_with_tools _ _ _ _ _ _ _ _ _ _ Hg Htc).
      cbn [fst snd rounds outcome forallb length]. intros Hall.
      apply andb_true_iff in Hall as [_ Hall].
      match goal with |- context [loop n self ctx cb ?h ?w'] =>
        destruct (IH h w' Hall) as [Hlen Hout] end.
      split; [by f_equal | done].
Qed.

(** The loop only appends, and what it appends is a sequence of turns. *)
Lemma loop_appends_turns n self ctx cb history w :
  exists appended,
    (loop n self ctx cb history w).1.2 = history ++ appended /\ Turns appended.
Proof.
  revert history w. induction n as [|n IH]; intros history w.
  - rewrite loop_exhausted. exists []. split; [by rewrite app_nil_r | constructor].
  - destruct (loop_cases n self ctx cb history w)
      as [(e & w1 & Hg)|[(r & w1 & Hg & Hf)|(r & w1 & c & cs & Hg & Htc)]].
    + rewrite (loop_round_rejected _ _ _ _ _ _ _ _ Hg).
      exists []. split; [by rewrite app_nil_r | constructor].
    + rewrite (loop_round_final _ _ _ _ _ _ _ _ Hg Hf).
      exists [r]. split; [done |].
      apply Turns_final; [| done]. by apply generateResponse_assistant in Hg as [? _].
    + rewrite (loop_round_with_tools _ _ _ _ _ _ _ _ _ _ Hg Htc).
      cbn [fst snd].
      pose proof (batch_answers self (c :: cs) ctx cb w1) as Hans.
      set (ms := (mapW toolResultMessage _ _).1) in *.
      match goal with |- context [loop n self ctx cb ?h ?w'] =>
        destruct (IH h w') as (rest & Hrest & Hturns) end.
      rewrite Hrest.
      exists (r :: ms ++ rest). split.
      * by rewrite <- !app_assoc.
      * eapply Turns_tools; [| exact Htc | done | exact Hans | done].
        by apply generateResponse_assistant in Hg as [? _].
Qed.
End LoopFacts.

(** ** Turns: every tool-role message answers the assistant message before it *)




(** Each assistant turn with requests is followed by exactly as many
    tool-role messages, whose identifiers are those of the requests, in
    order. *)
Lemma Turns_blocks (l : list AgentMessage) :
  Turns l ->
  forall pre a calls post,
    l = pre ++ a :: post -> role a = assistant -> toolCalls a = Some calls ->
    calls <> [] ->
    exists answersL rest,
      post = answersL ++ rest
      /\ List.map id answersL = List.map tc_id calls
      /\ Forall (fun m => role m = tool) answersL
      /\ Turns rest.
Proof.
  induction 1 as [|response Hrole Hfin|response calls0 ms rest0 Hrole Htc Hne Hans Hrest IH];
    intros pre a calls post Hl Ha Hcalls Hnonempty.
  - by destruct pre.
  - destruct pre as [|x pre]; simpl in Hl.
    + inversion Hl; subst. simpl in Hfin. rewrite Hcalls in Hfin.
      destruct calls; done.
    + inversion Hl as [[Hx Hnil]]. by destruct pre.
  - destruct pre as [|x pre]; simpl in Hl.
    + inversion Hl; subst. rewrite Htc in Hcalls. inversion Hcalls; subst.
      exists ms, rest0. split; [done |]. split; [| split; [| done]].
      * clear -Hans. induction Hans as [|c m cs ms' (_ & Hid & _) _ IH']; [done |].
        simpl. by rewrite Hid, IH'.
      * clear -Hans. induction Hans as [|c m cs ms' (Hr & _) _ IH']; by constructor.
    + inversion Hl as [[Hx Hrestl]]. subst x.
      (* [a] lies in the answers or in the later turns *)
      assert (Hsplit : (exists pre', rest0 = pre' ++ a :: post)).
      { clear -Hans Hrestl Ha. revert pre Hrestl.
        induction Hans as [|c m cs ms' Hcm Hans' IH']; intros pre Hrestl; simpl in Hrestl.
        - by exists pre.
        - destruct pre as [|y pre]; simpl in Hrestl.
          + inversion Hrestl; subst. destruct Hcm as [Hr _]. congruence.
          + inversion Hrestl as [[Hy Hrest']]. by apply (IH' pre). }
      destruct Hsplit as (pre' & ->).
      by eapply IH.
Qed.

(** ** [processMessage] *)

Section ProcessMessageFacts.
Context {W : Type} `{Host W}.
Implicit Types (self : Agent W) (ctx : ToolContext) (w : W) (text : string)
  (sid : option string) (cb : @StatusCallback W) (n : nat).

Lemma processMessage_eq self text ctx sid cb w :
  let s := (resolveSessionId sid w).1 in
  let w1 := (resolveSessionId sid w).2 in
  let hs := getOrCreateConversation s (userId ctx) self in
  let w3 := (Date_now (nanoid w1).2).2 in
  let r := loop maxIterations hs.2 ctx cb
                (messages hs.1 ++ [userMessage_of text sid w]) w3 in
  processMessage self text ctx sid cb w =
    (r.1.1,
     set_conversations
       (<[s := {| messages := r.1.2; ch_sessionId := ch_sessionId hs.1;
                  ch_userId := ch_userId hs.1; metadata := metadata hs.1 |}]>
          (conversations hs.2)) hs.2,
     r.2).
Proof.
  cbn zeta. unfold processMessage, userMessage_of.
  destruct (resolveSessionId sid w) as [s w1]. cbn [fst snd].
  destruct (getOrCreateConversation s (userId ctx) self) as [h self1]. cbn [fst snd].
  destruct (nanoid w1) as [mid w2]. cbn [fst snd].
  destruct (Date_now w2) as [now w3]. cbn [fst snd].
  by destruct (loop maxIterations self1 ctx cb _ w3) as [[run msgs] w4].
Qed.

Lemma getOrCreateConversation_keeps s uid self :
  aiProvider (getOrCreateConversation s uid self).2 = aiProvider self
  /\ tools (getOrCreateConversation s uid self).2 = tools self.
Proof.
  unfold getOrCreateConversation. by destruct (conversations self !! s).
Qed.

Lemma getOrCreateConversation_messages s uid self :
  messages (getOrCreateConversation s uid self).1 =
    match getConversation s self with Some h => messages h | None => [] end.
Proof.
  unfold getOrCreateConversation, getConversation.
  by destruct (conversations self !! s).
Qed.

Lemma resolveSessionId_given s w : s <> "" -> resolveSessionId (Some s) w = (s, w).
Proof.
  intros Hs. unfold resolveSessionId.
  destruct (String.eqb_spec s ""); [done | reflexivity].
Qed.

(** The history of the session after a call: what was there, the user
    message, and the turns of this call. *)
Lemma processMessage_history self text ctx sid cb w :
  let self' := (processMessage self text ctx sid cb w).1.2 in
  let s := (resolveSessionId sid w).1 in
  let before :=
    match getConversation s self with Some h => messages h | None => [] end in
  exists h' appended,
    getConversation s self' = Some h'
    /\ messages h' = before ++ userMessage_of text sid w :: appended
    /\ Turns appended.
Proof.
  cbn zeta. rewrite processMessage_eq. cbn [fst snd].
  set (s := (resolveSessionId sid w).1).
  set (hs := getOrCreateConversation s (userId ctx) self).
  destruct (loop_appends_turns maxIterations hs.2 ctx cb
              (messages hs.1 ++ [userMessage_of text sid w])
              (Date_now (nanoid (resolveSessionId sid w).2).2).2)
    as (appended & Happ & Hturns).
  eexists _, appended. split.
  { unfold getConversation, set_conversations. cbn [conversations].
    apply lookup_insert_eq. }
  cbn [messages]. rewrite Happ. subst hs.
  rewrite getOrCreateConversation_messages. split; [| done].
  by rewrite <- app_assoc.
Qed.

(** C1: a call of [processMessage] awaits between one and twenty model
    calls and then settles; when each of them resolved with at least one
    tool-invocation request there were twenty, and the call resolves (it
    does not reject) with the synthesized assistant message about the
    limit of processing steps. *)
Theorem processMessage_terminates self text ctx sid cb w :
  let run := (processMessage self text ctx sid cb w).1.1 in
  (1 <= length (rounds run) <= 20)%nat
  /\ (forallb requests_tools (rounds run) = true ->
      length (rounds run) = 20%nat
      /\ exists mid now,
          outcome run =
            Resolved {| id := mid; role := assistant; content := limit_text;
                        timestamp := now; toolCalls := None;
                        toolResults := None |}).
Proof.
  cbn zeta. rewrite processMessage_eq. cbn [fst snd]. split.
  - split; [apply loop_rounds_nonempty | apply loop_rounds_bound].
  - apply loop_all_tools.
Qed.

(** C9: after [clearConversation(s)] the store has no history for [s], and
    the next [processMessage] with session id [s] leaves a history for [s]
    whose message at index 0 is the new user message. *)
Theorem clear_then_process self s text ctx cb w :
  s <> "" ->
  let cleared := clearConversation s self in
  getConversation s cleared = None
  /\ exists h,
      getConversation s (processMessage cleared text ctx (Some s) cb w).1.2 = Some h
      /\ messages h !! 0%nat = Some (userMessage_of text (Some s) w)
      /\ role (userMessage_of text (Some s) w) = user
      /\ content (userMessage_of text (Some s) w) = text.
Proof.
  intros Hs cleared.
  assert (Hnone : getConversation s cleared = None).
  { unfold cleared, getConversation, clearConversation, set_conversations.
    cbn [conversations]. apply lookup_delete_eq. }
  split; [done |].
  destruct (processMessage_history cleared text ctx (Some s) cb w)
    as (h & appended & Hget & Hmsgs & _).
  rewrite resolveSessionId_given in Hget, Hmsgs by done. cbn [fst] in *.
  rewrite Hnone in Hmsgs. exists h. split; [done |].
  rewrite Hmsgs. done.
Qed.
End ProcessMessageFacts.

(** ** Fault isolation in a batch *)

Section BatchFacts.
Context {W : Type} `{Host W}.
Implicit Types (self : Agent W) (ctx : ToolContext) (w : W)
  (cb : @StatusCallback W) (calls : list ToolCall) (n : nat).

(** The [i]-th result of a batch is the result of running the [i]-th
    request in the world left by the requests before it. *)
Lemma executeTools_lookup self calls ctx cb w (i : nat) c :
  calls !! i = Some c ->
  (executeTools self calls ctx cb w).1 !! i =
    Some (executeTool self c ctx cb (executeTools self (take i calls) ctx cb w).2).1.
Proof.
  revert i w. induction calls as [|c0 calls IH]; intros i w Hi.
  - by rewrite lookup_nil in Hi.
  - destruct i as [|i]; simpl in Hi.
    + inversion Hi; subst. simpl.
      destruct (executeTool self c ctx cb w) as [r w1].
      by destruct (executeTools self calls ctx cb w1).
    + simpl. destruct (executeTool self c0 ctx cb w) as [r w1].
      specialize (IH i w1 Hi).
      destruct (executeTools self calls ctx cb w1) as [rs w2].
      destruct (executeTools self (take i calls) ctx cb w1) as [rs' w2'].
      exact IH.
Qed.

Lemma executeTool_callback_then_rejected self c ctx cb w t text w0 e w1 :
  map_get (tc_name c) (tools self) = Some t ->
  text = "🔧 Executing: " +:+ or_string (Some (description t)) (tc_name c) +:+ "..." ->
  notify cb text w = (Resolved tt, w0) ->
  execute t (tc_arguments c) ctx w0 = (Rejected e, w1) ->
  executeTool self c ctx cb w =
    ({| tr_id := tc_id c; tr_name := tc_name c; tr_result := JNull;
        tr_error := Some (message e) |}, w1).
Proof.
  intros Ht -> Hn He. unfold executeTool, bind. by rewrite Ht, Hn, He.
Qed.

(** C2: a batch of requests yields one result per request; a request for
    an unknown tool yields the not-found error, a tool whose [execute]
    rejects yields the message of its error; every request of the batch is
    run whatever the others did, each in the world the earlier ones left;
    and after the batch the loop enters the next round. *)
Theorem batch_fault_isolation self ctx cb calls w :
  let results := (executeTools self calls ctx cb w).1 in
  length results = length calls
  /\ (forall (i : nat) c,
        calls !! i = Some c ->
        exists r,
          results !! i = Some r
          /\ r = (executeTool self c ctx cb
                    (executeTools self (take i calls) ctx cb w).2).1
          /\ tr_id r = tc_id c /\ tr_name r = tc_name c)
  /\ (forall c w0,
        map_get (tc_name c) (tools self) = None ->
        executeTool self c ctx cb w0 =
          ({| tr_id := tc_id c; tr_name := tc_name c; tr_result := JNull;
              tr_error := Some ("Tool '" +:+ tc_name c +:+ "' not found") |}, w0))
  /\ (forall c t w0 w1 w2 e,
        map_get (tc_name c) (tools self) = Some t ->
        notify cb ("🔧 Executing: "
                   +:+ or_string (Some (description t)) (tc_name c) +:+ "...") w0
          = (Resolved tt, w1) ->
        execute t (tc_arguments c) ctx w1 = (Rejected e, w2) ->
        executeTool self c ctx cb w0 =
          ({| tr_id := tc_id c; tr_name := tc_name c; tr_result := JNull;
              tr_error := Some (message e) |}, w2))
  /\ (forall n history response w0 w1 c cs,
        generateResponse (aiProvider self) history (map_values (tools self)) w0
          = (Resolved response, w1) ->
        toolCalls response = Some (c :: cs) ->
        let batch := executeTools self (c :: cs) ctx cb w1 in
        let answersW := mapW toolResultMessage batch.1 batch.2 in
        let next :=
          loop n self ctx cb (history ++ [response] ++ answersW.1) answersW.2 in
        loop (S n) self ctx cb history w0 =
          ({| outcome := outcome next.1.1;
              rounds := Resolved response :: rounds next.1.1 |},
           next.1.2, next.2)).
Proof.
  cbn zeta. split; [apply executeTools_length |]. split.
  { intros i c Hi. eexists. split; [by apply executeTools_lookup |].
    split; [done |]. apply executeTool_correlated. }
  split; [intros; by apply executeTool_not_found |].
  split.
  { intros c t w0 w1 w2 e Ht Hn He.
    by eapply executeTool_callback_then_rejected. }
  intros n history response w0 w1 c cs Hg Htc.
  by apply loop_round_with_tools.
Qed.
End BatchFacts.

(** ** The transcript of a call *)

Section TranscriptFacts.
Context {W : Type} `{Host W}.
Implicit Types (self : Agent W) (ctx : ToolContext) (w : W) (text : string)
  (sid : option string) (cb : @StatusCallback W) (n : nat)
  (history : list AgentMessage) (calls : list ToolCall).
















End TranscriptFacts.


(** ** The wire format of histories *)

Section WireFacts.
Context {W : Type} `{Host W}.




End WireFacts.


(** ** The Groq adapter: retry without tools *)

Section GroqFacts.
Context {W : Type} `{Host W}.
Implicit Types (self : AIProvider) (msgs : list AgentMessage) (ts : list (Tool W))
  (w : W).

Lemma or_string_None d : or_string None d = d.
Proof. done. Qed.

Lemma or_string_empty d : or_string (Some "") d = d.
Proof. done. Qed.

Lemma or_string_given s d : s <> "" -> or_string (Some s) d = s.
Proof. intros Hs. unfold or_string. by destruct (String.eqb_spec s ""). Qed.

Lemma generateGroqResponse_other_error self client msgs ts sys w e w1 :
  groq_client self = Some client ->
  groq_chat_completions_create client (groq_request self msgs ts sys) w
    = (Rejected e, w1) ->
  is_tool_use_failed e = false ->
  generateGroqResponse self msgs ts sys w = (Rejected e, w1).
Proof.
  intros Hc Hcall Hno. unfold generateGroqResponse, groq_request in *.
  rewrite Hc. unfold try_catch, bind. rewrite Hcall, Hno. done.
Qed.

Lemma generateGroqResponse_retry self client msgs ts sys w e w1 :
  groq_client self = Some client ->
  groq_chat_completions_create client (groq_request self msgs ts sys) w
    = (Rejected e, w1) ->
  is_tool_use_failed e = true ->
  generateGroqResponse self msgs ts sys w =
    match groq_chat_completions_create client (groq_retry_request self msgs sys) w1 with
    | (Rejected e2, w2) => (Rejected e2, w2)
    | (Resolved fallbackResponse, w2) =>
        match gr_choices fallbackResponse with
        | [] => (Rejected (TypeError_undefined "message"), w2)
        | fallbackMessage :: _ =>
            let '(rid, w3) := or_stamped (gr_id fallbackResponse) "groq-" w2 in
            let '(now, w4) := Date_now w3 in
            (Resolved {| id := rid; role := assistant;
                         content := or_string (gm_content fallbackMessage) groq_apology;
                         timestamp := now;
                         toolCalls := None; toolResults := None |}, w4)
        end
    end.
Proof.
  intros Hc Hcall Hyes. unfold generateGroqResponse, groq_request, groq_retry_request in *.
  rewrite Hc. unfold try_catch at 1. unfold bind at 1. rewrite Hcall, Hyes.
  unfold bind, first_choice, lift, resolve, throw.
  destruct (groq_chat_completions_create client _ w1) as [[r|e2] w2]; [| done].
  destruct (gr_choices r) as [|m rest]; [done |].
  destruct (or_stamped (gr_id r) "groq-" w2) as [rid w3].
  by destruct (Date_now w3) as [now w4].
Qed.

(** C4: when the Groq endpoint rejects the request with status 400 and
    code [tool_use_failed], the adapter sends the request once more with
    the same messages and no tool definitions; a reply to that retry
    becomes an assistant message without tool calls, whose text is the
    reply's, or the fixed apology when the reply has none; a rejection of
    the retry is not retried.  Any other rejection of the first request is
    rethrown as it is. *)
Theorem groq_tool_use_failed_retries_once self client msgs ts sys w e w1 :
  groq_client self = Some client ->
  groq_chat_completions_create client (groq_request self msgs ts sys) w
    = (Rejected e, w1) ->
  (is_tool_use_failed e = false ->
     generateGroqResponse self msgs ts sys w = (Rejected e, w1))
  /\ (is_tool_use_failed e = true ->
      let retry :=
        groq_chat_completions_create client (groq_retry_request self msgs sys) w1 in
      req_tools (groq_retry_request self msgs sys) = None
      /\ req_messages (groq_retry_request self msgs sys)
          = req_messages (groq_request self msgs ts sys)
      /\ (forall e2,
            retry.1 = Rejected e2 ->
            generateGroqResponse self msgs ts sys w = (Rejected e2, retry.2))
      /\ (forall r m rest,
            retry.1 = Resolved r -> gr_choices r = m :: rest ->
            exists rid now w4,
              generateGroqResponse self msgs ts sys w =
                (Resolved {| id := rid; role := assistant;
                             content :=
                               match gm_content m with
                               | Some text =>
                                   if String.eqb text "" then groq_apology else text
                               | None => groq_apology
                               end;
                             timestamp := now;
                             toolCalls := None; toolResults := None |}, w4))).
Proof.
  intros Hc Hcall. split.
  - intros Hno. by eapply generateGroqResponse_other_error.
  - intros Hyes. cbn zeta. split; [done |]. split; [done |].
    rewrite (generateGroqResponse_retry _ _ _ _ _ _ _ _ Hc Hcall Hyes).
    destruct (groq_chat_completions_create client _ w1) as [[r|e2] w2]; cbn [fst snd].
    + split; [intros e2 He2; discriminate He2 |].
      intros r' m rest Hr Hch. inversion Hr; subst r'. rewrite Hch.
      destruct (or_stamped (gr_id r) "groq-" w2) as [rid w3].
      destruct (Date_now w3) as [now w4]. by exists rid, now, w4.
    + split; [intros e2' He2; by inversion He2 |].
      intros r m rest Hr. discriminate Hr.
Qed.
End GroqFacts.

Lemma groq_retry_witness :
  exists rid now w4,
    generateGroqResponse groq_provider [] [Sim.echo] "sys" groq_failing_world =
      (Resolved {| id := rid; role := assistant; content := groq_apology;
                   timestamp := now; toolCalls := None; toolResults := None |}, w4).
Proof.
  pose (w1 := (Sim.groq_call "gsk-test"
                 (groq_request groq_provider [] [Sim.echo] "sys") groq_failing_world).2).
  assert (Hcall : groq_chat_completions_create "gsk-test"
                    (groq_request groq_provider [] [Sim.echo] "sys") groq_failing_world
                  = (Rejected tool_use_failed, w1)) by reflexivity.
  destruct (groq_tool_use_failed_retries_once groq_provider "gsk-test" [] [Sim.echo]
              "sys" groq_failing_world tool_use_failed w1 eq_refl Hcall) as [_ Hretry].
  destruct (Hretry eq_refl) as (_ & _ & _ & Hres).
  eapply (Hres _ {| gm_content := None; gm_tool_calls := None |} []); reflexivity.
Defined.

Lemma registry_overwrite_witness :
  let a := registerTool echo_v2 (registerTool Sim.echo (Sim.agent_of ollama [])) in
  map_get "echo" (tools a) = Some echo_v2 /\ entries_under "echo" (tools a) = 1%nat.
Proof.
  destruct (registry_overwrite Sim.echo echo_v2 (Sim.agent_of ollama [])
              (NoDup_nil_2 (A := string)) eq_refl) as (Hget & Hone & _).
  split; [exact Hget | exact Hone].
Defined.

Lemma clear_then_process_witness :
  getConversation "s1" (clearConversation "s1" (Sim.agent_of ollama [])) = None
  /\ exists h,
      getConversation "s1"
        (processMessage (clearConversation "s1" (Sim.agent_of ollama []))
           "hello" Sim.context0 (Some "s1") None ollama_world).1.2 = Some h
      /\ messages h !! 0%nat = Some (userMessage_of "hello" (Some "s1") ollama_world)
      /\ role (userMessage_of "hello" (Some "s1") ollama_world) = user
      /\ content (userMessage_of "hello" (Some "s1") ollama_world) = "hello".
Proof.
  apply (clear_then_process (Sim.agent_of ollama []) "s1" "hello" Sim.context0 None
           ollama_world).
  discriminate.
Defined.

(** ** The OpenAI adapter: arguments that are not JSON *)

Section OpenAIFacts.
Context {W : Type} `{Host W}.
Implicit Types (self : AIProvider) (msgs : list AgentMessage) (ts : list (Tool W))
  (w : W).

Lemma parseOpenAIToolCalls_first_failure (before after : list OpenAIToolCall) tc e :
  Forall (fun t => exists c, parseOpenAIToolCall t = Resolved c) before ->
  parseOpenAIToolCall tc = Rejected e ->
  parseOpenAIToolCalls (before ++ tc :: after) = Rejected e.
Proof.
  intros Hb Htc. induction Hb as [|t before [c Hc] Hb IH]; simpl.
  - by rewrite Htc.
  - by rewrite Hc, IH.
Qed.

Lemma parseOpenAIToolCall_rejected tc e :
  JSON_parse (fn_arguments (otc_function tc)) = Rejected e ->
  parseOpenAIToolCall tc = Rejected e.
Proof. unfold parseOpenAIToolCall. by intros ->. Qed.

Lemma generateOpenAIResponse_parse_failure self client msgs ts sys w response w1
    message others (before after : list OpenAIToolCall) tc e :
  openai_client self = Some client ->
  openai_chat_completions_create client
    (chatRequest (ai_config self) (formatChatMessages sys msgs)
       (nonempty_or_undefined (List.map chatToolDefinition ts))) w
    = (Resolved response, w1) ->
  or_choices response = message :: others ->
  om_tool_calls message = Some (before ++ tc :: after) ->
  Forall (fun t => exists c, parseOpenAIToolCall t = Resolved c) before ->
  JSON_parse (fn_arguments (otc_function tc)) = Rejected e ->
  (generateOpenAIResponse self msgs ts sys w).1 = Rejected e.
Proof.
  intros Hc Hcall Hch Htcs Hb He.
  pose proof (parseOpenAIToolCalls_first_failure before after tc e Hb
                (parseOpenAIToolCall_rejected tc e He)) as Hparse.
  unfold generateOpenAIResponse. rewrite Hc. unfold bind at 1. rewrite Hcall.
  unfold bind at 1. destruct (trackUsage _ _ _ w1) as [[[]|e'] w2] eqn:Htrack.
  2:{ unfold trackUsage in Htrack. destruct (or_usage response); discriminate Htrack. }
  unfold bind, first_choice, lift, resolve, throw. rewrite Hch.
  destruct (Date_now w2) as [now w3]. rewrite Htcs.
  destruct (before ++ tc :: after) as [|t0 rest] eqn:Hl.
  { by destruct before. }
  by rewrite Hparse.
Qed.

(** C6, on the OpenAI adapter: when the reply carries a function call
    whose arguments [JSON.parse] rejects, the adapter rejects with that
    error; the well-formed calls of the same reply and its text are lost
    with it. *)
Theorem openai_malformed_arguments_reject self client msgs ts sys w response w1
    message others (before after : list OpenAIToolCall) tc e :
  openai_client self = Some client ->
  openai_chat_completions_create client
    (chatRequest (ai_config self) (formatChatMessages sys msgs)
       (nonempty_or_undefined (List.map chatToolDefinition ts))) w
    = (Resolved response, w1) ->
  or_choices response = message :: others ->
  om_tool_calls message = Some (before ++ tc :: after) ->
  Forall (fun t => exists c, parseOpenAIToolCall t = Resolved c) before ->
  JSON_parse (fn_arguments (otc_function tc)) = Rejected e ->
  (generateOpenAIResponse self msgs ts sys w).1 = Rejected e
  /\ forall m, (generateOpenAIResponse self msgs ts sys w).1 <> Resolved m.
Proof.
  intros Hc Hcall Hch Htcs Hb He.
  rewrite (generateOpenAIResponse_parse_failure _ _ _ _ _ _ _ _ _ _ _ _ _ _
             Hc Hcall Hch Htcs Hb He).
  split; [done | discriminate].
Qed.
End OpenAIFacts.

Lemma openai_malformed_arguments_witness :
  (generateOpenAIResponse openai_provider [] [Sim.echo] "sys"
     openai_bad_arguments_world).1
  = Rejected (Error "Unexpected end of JSON input").
Proof.
  refine (proj1 (openai_malformed_arguments_reject openai_provider "sk-test" []
            [Sim.echo] "sys" openai_bad_arguments_world _ Sim.world0 _ []
            [ {| otc_id := "call_1";
                 otc_function := {| fn_name := "echo"; fn_arguments := "{}" |} |} ]
            []
            {| otc_id := "call_2";
               otc_function := {| fn_name := "echo"; fn_arguments := "{" |} |}
            (Error "Unexpected end of JSON input")
            eq_refl _ _ _ _ _)).
  - reflexivity.
  - reflexivity.
  - reflexivity.
  - constructor; [| constructor]. eexists. reflexivity.
  - reflexivity.
Defined.

(** ** The Ollama adapter *)

Section OllamaFacts.
Context {W : Type} `{Host W}.
Implicit Types (self : Agent W) (ctx : ToolContext) (w : W) (text : string)
  (sid : option string) (cb : @StatusCallback W).

Lemma generateResponse_ollama (p : AIProvider) msgs (ts : list (Tool W)) :
  provider (ai_config p) = ollama ->
  generateResponse p msgs ts =
    generateOllamaResponse p msgs ts (or_string (systemPrompt (ai_config p))
                                                defaultSystemPrompt).
Proof. unfold generateResponse. by intros ->. Qed.

Lemma loop_ollama (n : nat) self ctx cb history w :
  provider (ai_config (aiProvider self)) = ollama ->
  let first :=
    generateResponse (aiProvider self) history (map_values (tools self)) w in
  loop (S n) self ctx cb history w =
    ({| outcome := first.1; rounds := [first.1] |},
     match first.1 with Resolved m => history ++ [m] | Rejected _ => history end,
     first.2).
Proof.
  intros Hp. cbn zeta. rewrite loop_S.
  destruct (generateResponse _ _ _ w) as [[m|e] w1] eqn:Hg; [| done].
  rewrite generateResponse_ollama in Hg by done.
  apply generateOllamaResponse_assistant in Hg as (_ & _ & Htc).
  cbn zeta. by rewrite Htc.
Qed.

(** C10: with provider [ollama] the adapter does not look at the tool
    descriptors and a message it returns is an assistant message without
    tool-invocation requests; [processMessage] therefore awaits exactly one
    model call, on the history extended with the user message, and settles
    as that call did. *)
Theorem ollama_single_round self text ctx sid cb w :
  provider (ai_config (aiProvider self)) = ollama ->
  (forall msgs (ts1 ts2 : list (Tool W)) w0,
      generateResponse (aiProvider self) msgs ts1 w0
      = generateResponse (aiProvider self) msgs ts2 w0)
  /\ (forall msgs (ts : list (Tool W)) w0 m w1,
      generateResponse (aiProvider self) msgs ts w0 = (Resolved m, w1) ->
      role m = assistant /\ toolCalls m = None)
  /\ let run := (processMessage self text ctx sid cb w).1.1 in
     let s := (resolveSessionId sid w).1 in
     let before :=
       match getConversation s self with Some h => messages h | None => [] end in
     let first :=
       generateResponse (aiProvider self) (before ++ [userMessage_of text sid w])
         (map_values (tools self))
         (Date_now (nanoid (resolveSessionId sid w).2).2).2 in
     rounds run = [first.1] /\ outcome run = first.1.
Proof.
  intros Hp. split.
  { intros msgs ts1 ts2 w0. by rewrite !generateResponse_ollama. }
  split.
  { intros msgs ts w0 m w1 Hg. rewrite generateResponse_ollama in Hg by done.
    apply generateOllamaResponse_assistant in Hg. tauto. }
  cbn zeta. rewrite processMessage_eq. cbn [fst snd].
  set (s := (resolveSessionId sid w).1).
  destruct (getOrCreateConversation_keeps s (userId ctx) self) as [Hai Htools].
  unfold maxIterations. rewrite loop_ollama by (by rewrite Hai).
  cbn [fst snd rounds outcome].
  rewrite Hai, Htools, getOrCreateConversation_messages. done.
Qed.
End OllamaFacts.

Lemma ollama_single_round_witness :
  let run := (processMessage (Sim.agent_of ollama [Sim.echo]) "hi" Sim.context0
                (Some "s1") None ollama_world).1.1 in
  length (rounds run) = 1%nat
  /\ exists m, outcome run = Resolved m /\ content m = "Hello." /\ toolCalls m = None.
Proof.
  destruct (ollama_single_round (Sim.agent_of ollama [Sim.echo]) "hi" Sim.context0
              (Some "s1") None ollama_world eq_refl) as (_ & _ & Hrounds & Hout).
  cbn zeta. rewrite Hrounds, Hout. split; [reflexivity |].
  eexists. split; [reflexivity |]. split; reflexivity.
Defined.

(** ** The file tools and the workspace check *)

Section FileToolFacts.
Context {W : Type} `{Host W}.
Implicit Types (w : W) (ctx : ToolContext).

Lemma read_file_denied root filePath ctx w :
  workspace_of ctx = root ->
  within_workspace root filePath = false ->
  read_file_execute (JObj [("filePath", JStr filePath)]) ctx w =
    (Resolved (JStr ("Error: Access denied. File must be within workspace: " +:+ root)),
     w).
Proof.
  intros Hroot Hout. unfold read_file_execute, destructure, json_get, assoc_get.
  rewrite String.eqb_refl, Hroot. unfold try_catch. rewrite Hout. done.
Qed.

Lemma read_file_allowed root filePath ctx w text w1 w2 :
  workspace_of ctx = root ->
  within_workspace root filePath = true ->
  fs_stat (path_resolve process_cwd (fullPath_of root filePath)) w = (Resolved true, w1) ->
  fs_readFile (path_resolve process_cwd (fullPath_of root filePath)) w1
    = (Resolved text, w2) ->
  read_file_execute (JObj [("filePath", JStr filePath)]) ctx w =
    (Resolved (JStr ("File: " +:+ filePath +:+ newline +:+ newline
                     +:+ "Content:" +:+ newline +:+ text)), w2).
Proof.
  intros Hroot Hin Hstat Hread.
  unfold read_file_execute, destructure, json_get, assoc_get.
  rewrite String.eqb_refl, Hroot. unfold try_catch, bind, resolve.
  rewrite Hin. cbn [negb]. rewrite Hstat. cbn [negb]. by rewrite Hread.
Qed.

(** C7, at the input on which the code departs from it: with workspace
    root [/workspace], the path [/workspaceX/secret.txt] passes the check
    (the resolved root is a prefix of the resolved path as a string), and
    [read_file] reads the file and returns its contents. *)
Theorem read_file_sibling_directory_escapes (cur uid : option string) (sess : string) w :
  let ctx := {| workspaceRoot := Some "/workspace"; currentFile := cur;
                userId := uid; sessionId := sess |} in
  path_resolve process_cwd "/workspace" = "/workspace"
  /\ path_resolve process_cwd (fullPath_of "/workspace" "/workspaceX/secret.txt")
     = "/workspaceX/secret.txt"
  /\ within_workspace "/workspace" "/workspaceX/secret.txt" = true
  /\ forall text w1 w2,
      fs_stat "/workspaceX/secret.txt" w = (Resolved true, w1) ->
      fs_readFile "/workspaceX/secret.txt" w1 = (Resolved text, w2) ->
      read_file_execute sibling_args ctx w =
        (Resolved (JStr ("File: /workspaceX/secret.txt" +:+ newline +:+ newline
                         +:+ "Content:" +:+ newline +:+ text)), w2).
Proof.
  cbn zeta. split; [reflexivity |]. split; [reflexivity |]. split; [reflexivity |].
  intros text w1 w2 Hstat Hread.
  by apply (read_file_allowed "/workspace" "/workspaceX/secret.txt" _ w text w1 w2).
Qed.
End FileToolFacts.

Lemma read_file_sibling_witness :
  execute FileSystemTool sibling_args Sim.context0 sibling_world =
    (Resolved (JStr ("File: /workspaceX/secret.txt" +:+ newline +:+ newline
                     +:+ "Content:" +:+ newline +:+ "TOP SECRET")), sibling_world).
Proof.
  destruct (read_file_sibling_directory_escapes None None "s1" sibling_world)
    as (_ & _ & _ & Hread).
  apply (Hread "TOP SECRET" sibling_world sibling_world); reflexivity.
Defined.

(** ** Concrete runs *)

Lemma processMessage_limit_witness :
  let run := (processMessage (Sim.agent_of groq [Sim.echo]) "again" Sim.context0
                (Some "s1") None groq_insistent_world).1.1 in
  length (rounds run) = 20%nat
  /\ exists mid now,
      outcome run =
        Resolved {| id := mid; role := assistant; content := limit_text;
                    timestamp := now; toolCalls := None; toolResults := None |}.
Proof.
  apply (proj2 (processMessage_terminates (Sim.agent_of groq [Sim.echo]) "again"
                  Sim.context0 (Some "s1") None groq_insistent_world)).
  vm_compute. reflexivity.
Defined.

Lemma batch_fault_isolation_witness :
  List.map (fun r => (tr_id r, tr_result r, tr_error r))
    (executeTools (Sim.agent_of ollama [Sim.echo; Sim.boom]) mixed_batch Sim.context0
       None Sim.world0).1
  = [ ("call_a", JStr "ok", None);
      ("call_b", JNull, Some "kaboom");
      ("call_c", JNull, Some "Tool 'nonexistent_tool' not found");
      ("call_d", JStr "ok", None) ]
  /\ length (executeTools (Sim.agent_of ollama [Sim.echo; Sim.boom]) mixed_batch
               Sim.context0 None Sim.world0).1 = 4%nat.
Proof.
  split; [vm_compute; reflexivity |].
  exact (proj1 (batch_fault_isolation (Sim.agent_of ollama [Sim.echo; Sim.boom])
                  Sim.context0 None mixed_batch Sim.world0)).
Defined.

(** ** What [processMessage] touches, and how it ends *)

Section SessionFacts.
Context {W : Type} `{Host W}.
Implicit Types (self : Agent W) (ctx : ToolContext) (w : W) (text : string)
  (sid : option string) (cb : @StatusCallback W) (n : nat).

Lemma getOrCreateConversation_other s s' uid self :
  s <> s' ->
  conversations (getOrCreateConversation s uid self).2 !! s' = conversations self !! s'.
Proof.
  intros Hne. unfold getOrCreateConversation.
  destruct (conversations self !! s); [done |].
  cbn [snd set_conversations conversations]. by rewrite lookup_insert_ne.
Qed.

Lemma getOrCreateConversation_config s uid self :
  config (getOrCreateConversation s uid self).2 = config self.
Proof. unfold getOrCreateConversation. by destruct (conversations self !! s). Qed.

Lemma processMessage_keeps self text ctx sid cb w :
  let self' := (processMessage self text ctx sid cb w).1.2 in
  let s := (resolveSessionId sid w).1 in
  tools self' = tools self
  /\ config self' = config self
  /\ aiProvider self' = aiProvider self
  /\ forall s', s' <> s -> getConversation s' self' = getConversation s' self.
Proof.
  cbn zeta. rewrite processMessage_eq. cbn [fst snd].
  set (s := (resolveSessionId sid w).1).
  destruct (getOrCreateConversation_keeps s (userId ctx) self) as [Hai Htools].
  unfold set_conversations. cbn [tools config aiProvider].
  split; [done |]. split; [apply getOrCreateConversation_config |]. split; [done |].
  intros s' Hne. unfold getConversation. cbn [conversations].
  rewrite lookup_insert_ne by done. by apply getOrCreateConversation_other.
Qed.

(** X1: A call changes the history of its own session and nothing else of the
    agent: the registry, the configuration, the provider and the histories
    of all other sessions are as before, whether the call resolves or
    rejects. *)
Theorem processMessage_frame self text ctx sid cb w :
  let self' := (processMessage self text ctx sid cb w).1.2 in
  let s := (resolveSessionId sid w).1 in
  tools self' = tools self
  /\ config self' = config self
  /\ aiProvider self' = aiProvider self
  /\ forall s', s' <> s -> getConversation s' self' = getConversation s' self.
Proof. apply processMessage_keeps. Qed.

Lemma processMessage_first_call_rejected self text ctx sid cb w e w1 :
  let s := (resolveSessionId sid w).1 in
  let before :=
    match getConversation s self with Some h => messages h | None => [] end in
  generateResponse (aiProvider self) (before ++ [userMessage_of text sid w])
    (map_values (tools self)) (Date_now (nanoid (resolveSessionId sid w).2).2).2
    = (Rejected e, w1) ->
  let result := processMessage self text ctx sid cb w in
  outcome result.1.1 = Rejected e
  /\ rounds result.1.1 = [Rejected e]
  /\ result.2 = w1
  /\ exists h, getConversation s result.1.2 = Some h
       /\ messages h = before ++ [userMessage_of text sid w].
Proof.
  cbn zeta. intros Hg. rewrite processMessage_eq. cbn [fst snd].
  set (s := (resolveSessionId sid w).1) in *.
  destruct (getOrCreateConversation_keeps s (userId ctx) self) as [Hai Htools].
  unfold maxIterations.
  rewrite (loop_round_rejected _ _ _ _ _ _ e w1).
  2:{ by rewrite Hai, Htools, getOrCreateConversation_messages. }
  cbn [fst snd outcome rounds]. split; [done |]. split; [done |]. split; [done |].
  eexists. split.
  { unfold getConversation, set_conversations. cbn [conversations].
    apply lookup_insert_eq. }
  cbn [messages]. by rewrite getOrCreateConversation_messages.
Qed.

(** X2: A rejection of the first model call is the rejection of the call; the
    user message stays in the history of the session. *)
Theorem processMessage_model_error self text ctx sid cb w e w1 :
  let s := (resolveSessionId sid w).1 in
  let before :=
    match getConversation s self with Some h => messages h | None => [] end in
  generateResponse (aiProvider self) (before ++ [userMessage_of text sid w])
    (map_values (tools self)) (Date_now (nanoid (resolveSessionId sid w).2).2).2
    = (Rejected e, w1) ->
  let result := processMessage self text ctx sid cb w in
  outcome result.1.1 = Rejected e
  /\ rounds result.1.1 = [Rejected e]
  /\ result.2 = w1
  /\ exists h, getConversation s result.1.2 = Some h
       /\ messages h = before ++ [userMessage_of text sid w].
Proof. apply processMessage_first_call_rejected. Qed.

(** X3: A first response without requests is the answer: one model call, and
    the history gains the user message and that response. *)
Theorem processMessage_direct_answer self text ctx sid cb w response w1 :
  let s := (resolveSessionId sid w).1 in
  let before :=
    match getConversation s self with Some h => messages h | None => [] end in
  generateResponse (aiProvider self) (before ++ [userMessage_of text sid w])
    (map_values (tools self)) (Date_now (nanoid (resolveSessionId sid w).2).2).2
    = (Resolved response, w1) ->
  requests_tools (Resolved response) = false ->
  let result := processMessage self text ctx sid cb w in
  outcome result.1.1 = Resolved response
  /\ rounds result.1.1 = [Resolved response]
  /\ result.2 = w1
  /\ exists h, getConversation s result.1.2 = Some h
       /\ messages h = before ++ [userMessage_of text sid w; response].
Proof.
  cbn zeta. intros Hg Hfin. rewrite processMessage_eq. cbn [fst snd].
  set (s := (resolveSessionId sid w).1) in *.
  destruct (getOrCreateConversation_keeps s (userId ctx) self) as [Hai Htools].
  unfold maxIterations.
  rewrite (loop_round_final _ _ _ _ _ _ response w1).
  2:{ by rewrite Hai, Htools, getOrCreateConversation_messages. }
  2:{ done. }
  cbn [fst snd outcome rounds]. split; [done |]. split; [done |]. split; [done |].
  eexists. split.
  { unfold getConversation, set_conversations. cbn [conversations].
    apply lookup_insert_eq. }
  cbn [messages]. rewrite getOrCreateConversation_messages.
  by rewrite <- app_assoc.
Qed.

(** X4: An empty session id is no session id: the call runs under a generated
    identifier, and the history stored under the empty identifier, if any,
    is not touched. *)
Theorem processMessage_empty_session_id self text ctx cb w :
  (nanoid w).1 <> "" ->
  let self' := (processMessage self text ctx (Some "") cb w).1.2 in
  getConversation "" self' = getConversation "" self
  /\ exists h, getConversation (nanoid w).1 self' = Some h
       /\ userMessage_of text (Some "") w ∈ messages h.
Proof.
  intros Hfresh. cbn zeta.
  destruct (processMessage_keeps self text ctx (Some "") cb w) as (_ & _ & _ & Hother).
  destruct (processMessage_history self text ctx (Some "") cb w)
    as (h & appended & Hget & Hmsgs & _).
  change (resolveSessionId (Some "") w).1 with (nanoid w).1 in *.
  split; [by apply Hother |].
  exists h. split; [done |]. rewrite Hmsgs.
  apply elem_of_app. right. apply elem_of_cons. by left.
Qed.
End SessionFacts.

Lemma processMessage_model_error_witness :
  let result := processMessage (Sim.agent_of ollama []) "hi" Sim.context0 (Some "s1")
                  None Sim.world0 in
  outcome result.1.1 = Rejected Sim.unreachable
  /\ exists h, getConversation "s1" result.1.2 = Some h /\ length (messages h) = 1%nat.
Proof.
  edestruct (processMessage_model_error (Sim.agent_of ollama []) "hi" Sim.context0
               (Some "s1") None Sim.world0) as (Hout & _ & _ & h & Hget & Hmsgs).
  { vm_compute. reflexivity. }
  split; [rewrite Hout; reflexivity |].
  exists h. split; [exact Hget |]. rewrite Hmsgs. reflexivity.
Defined.

Lemma processMessage_direct_answer_witness :
  let result := processMessage (Sim.agent_of ollama []) "hi" Sim.context0 (Some "s1")
                  None ollama_world in
  exists m h, outcome result.1.1 = Resolved m /\ content m = "Hello."
    /\ getConversation "s1" result.1.2 = Some h /\ length (messages h) = 2%nat.
Proof.
  edestruct (processMessage_direct_answer (Sim.agent_of ollama []) "hi" Sim.context0
               (Some "s1") None ollama_world) as (Hout & _ & _ & h & Hget & Hmsgs).
  { vm_compute. reflexivity. }
  { reflexivity. }
  eexists _, h. split; [exact Hout |]. split; [reflexivity |].
  split; [exact Hget |]. rewrite Hmsgs. reflexivity.
Defined.

Lemma processMessage_empty_session_id_witness :
  getConversation ""
    (processMessage (Sim.agent_of ollama []) "hi" Sim.context0 (Some "") None
       ollama_world).1.2 = None.
Proof.
  destruct (processMessage_empty_session_id (Sim.agent_of ollama []) "hi" Sim.context0
              None ollama_world) as [Hsame _].
  - discriminate.
  - rewrite Hsame. reflexivity.
Defined.

(** ** Registration order and the tools offered to the model *)

Section RegistryOrder.
Context {W : Type} `{Host W}.
Implicit Types (self : Agent W) (t : Tool W) (ts : list (Tool W)).

Lemma registerTool_tools t self :
  tools (registerTool t self) = map_set (name t) t (tools self).
Proof. reflexivity. Qed.

Lemma map_values_set_absent {V : Type} k (v : V) (m : JsMap V) :
  k ∉ map_keys m -> map_values (map_set k v m) = map_values m ++ [v].
Proof.
  unfold map_keys, map_values. induction m as [|[k0 v0] m IH]; simpl; [done |].
  intros Hin. apply not_elem_of_cons in Hin as [Hne Hin].
  destruct (String.eqb_spec k0 k) as [->|Hk]; simpl; [done |].
  f_equal. by apply IH.
Qed.

Lemma registerTools_fresh_names ts self :
  NoDup (List.map name ts) ->
  (forall t, t ∈ ts -> name t ∉ map_keys (tools self)) ->
  map_values (tools (registerTools ts self)) = map_values (tools self) ++ ts
  /\ map_keys (tools (registerTools ts self))
     = map_keys (tools self) ++ List.map name ts.
Proof.
  revert self. induction ts as [|t ts IH]; intros self Hnd Hfresh.
  - cbn. by rewrite !app_nil_r.
  - rewrite registerTools_cons. cbn [List.map] in Hnd.
    apply NoDup_cons in Hnd as [Hnotin Hnd].
    assert (Ht : name t ∉ map_keys (tools self)).
    { apply Hfresh. apply elem_of_cons. by left. }
    destruct (IH (registerTool t self) Hnd) as [Hv Hk].
    { intros t' Ht'. rewrite registerTool_tools, map_keys_set_absent by done.
      intros Hin. apply elem_of_app in Hin as [Hin|Hin].
      - eapply Hfresh; [| exact Hin]. apply elem_of_cons. by right.
      - apply list_elem_of_singleton in Hin. apply Hnotin. rewrite <- Hin.
        apply list_elem_of_In, in_map. by apply list_elem_of_In. }
    rewrite Hv, Hk, registerTool_tools.
    rewrite map_values_set_absent, map_keys_set_absent by done.
    by rewrite <- !app_assoc.
Qed.

(** X6: Tools with distinct names registered on a new agent are offered to the
    model in the order of registration. *)
Theorem registerTools_order cfg (a : Agent W) ts :
  new_Agent cfg = Resolved a ->
  NoDup (List.map name ts) ->
  map_values (tools (registerTools ts a)) = ts.
Proof.
  intros Hnew Hnd. unfold new_Agent in Hnew.
  destruct (new_AIProvider cfg) as [p|e]; [| discriminate Hnew].
  inversion Hnew; subst a.
  destruct (registerTools_fresh_names ts
              {| config := cfg; aiProvider := p; tools := []; conversations := ∅ |} Hnd)
    as [Hv _]; [| exact Hv].
  intros t _. cbn. apply not_elem_of_nil.
Qed.

(** X7: Registering a descriptor under a name that is taken replaces the
    descriptor where it stands: the names keep their order, the other
    descriptors stay. *)
Theorem registerTool_replaces_in_place t self :
  name t ∈ map_keys (tools self) ->
  map_keys (tools (registerTool t self)) = map_keys (tools self)
  /\ length (tools (registerTool t self)) = length (tools self)
  /\ forall k, k <> name t ->
       map_get k (tools (registerTool t self)) = map_get k (tools self).
Proof.
  intros Hin. split; [by apply map_keys_set_present |]. split.
  - rewrite <- (length_map fst (tools (registerTool t self))).
    rewrite <- (length_map fst (tools self)).
    f_equal. by apply (map_keys_set_present (name t) t (tools self)).
  - intros k Hk. by apply registerTool_get_other.
Qed.
End RegistryOrder.

Lemma registerTools_order_witness :
  map_values (tools (registerTools [Sim.echo; Sim.boom] (Sim.agent_of ollama [])))
  = [Sim.echo; Sim.boom].
Proof.
  apply (registerTools_order (Sim.config_of ollama)); [reflexivity |].
  apply NoDup_cons. split.
  - intros Hin. apply list_elem_of_singleton in Hin. discriminate Hin.
  - apply NoDup_singleton.
Defined.

Lemma registerTool_replaces_in_place_witness :
  map_keys (tools (registerTool echo_v2 (Sim.agent_of ollama [Sim.echo; Sim.boom])))
  = ["echo"; "boom"].
Proof.
  destruct (registerTool_replaces_in_place echo_v2
              (Sim.agent_of ollama [Sim.echo; Sim.boom])) as (Hkeys & _).
  - apply elem_of_cons. left. reflexivity.
  - rewrite Hkeys. reflexivity.
Defined.

(** ** What the model reads of a tool outcome *)

Section ToolMessageFacts.
Context {W : Type} `{Host W}.
Implicit Types (self : Agent W) (c : ToolCall) (ctx : ToolContext) (w : W).

(** X8: The text of the tool-role message for each outcome of a tool run
    without status callback: a string result verbatim, any other result as
    JSON, an error as the JSON string of its message; an error with an
    empty message leaves the JSON of [null]. *)
Theorem tool_message_content self c ctx w t o w1 :
  map_get (tc_name c) (tools self) = Some t ->
  execute t (tc_arguments c) ctx w = (o, w1) ->
  toolResultContent (executeTool self c ctx None w).1 =
    match o with
    | Resolved (JStr s) => s
    | Resolved j => JSON_stringify j
    | Rejected e =>
        if String.eqb (message e) "" then JSON_stringify JNull
        else JSON_stringify (JStr (message e))
    end.
Proof.
  intros Ht Hx. destruct o as [j|e].
  - rewrite (executeTool_resolved _ _ _ _ _ _ _ Ht Hx).
    unfold toolResultContent, error_or_result. cbn. by destruct j.
  - rewrite (executeTool_rejected _ _ _ _ _ _ _ Ht Hx).
    unfold toolResultContent, error_or_result. cbn.
    by destruct (String.eqb (message e) "").
Qed.

(** X9: For a tool that is not registered the model reads the JSON string of
    the not-found text, and nothing was executed. *)
Theorem tool_message_not_found self c ctx cb w :
  map_get (tc_name c) (tools self) = None ->
  toolResultContent (executeTool self c ctx cb w).1
    = JSON_stringify (JStr ("Tool '" +:+ tc_name c +:+ "' not found"))
  /\ (executeTool self c ctx cb w).2 = w.
Proof.
  intros Hnone. rewrite executeTool_not_found by done. split; [| done].
  unfold toolResultContent, error_or_result. cbn.
  destruct (String.eqb_spec ("Tool '" +:+ tc_name c +:+ "' not found") "") as [Habs|_];
    [| done].
  discriminate Habs.
Qed.

(** X10: When the status callback throws, the tool is not run: the result
    carries the message of the callback's error and the world is the one the
    callback left. *)
Theorem executeTool_callback_throws self c ctx (notifyStatus : string -> Async W unit)
    w t e w1 :
  map_get (tc_name c) (tools self) = Some t ->
  notifyStatus ("🔧 Executing: " +:+ or_string (Some (description t)) (tc_name c)
                +:+ "...") w = (Rejected e, w1) ->
  executeTool self c ctx (Some notifyStatus) w =
    ({| tr_id := tc_id c; tr_name := tc_name c; tr_result := JNull;
        tr_error := Some (message e) |}, w1).
Proof.
  intros Ht Hn. unfold executeTool, notify, bind. by rewrite Ht, Hn.
Qed.
End ToolMessageFacts.

Lemma tool_message_content_witness :
  toolResultContent
    (executeTool (Sim.agent_of ollama [Sim.echo; Sim.boom])
       {| tc_id := "call_b"; tc_name := "boom"; tc_arguments := JObj [] |}
       Sim.context0 None Sim.world0).1
  = Sim.quote +:+ "kaboom" +:+ Sim.quote.
Proof.
  rewrite (tool_message_content (Sim.agent_of ollama [Sim.echo; Sim.boom])
             {| tc_id := "call_b"; tc_name := "boom"; tc_arguments := JObj [] |}
             Sim.context0 Sim.world0 Sim.boom (Rejected (Error "kaboom")) Sim.world0
             eq_refl eq_refl).
  reflexivity.
Defined.

Lemma tool_message_not_found_witness :
  toolResultContent
    (executeTool (Sim.agent_of ollama [Sim.echo])
       {| tc_id := "call_c"; tc_name := "nonexistent_tool"; tc_arguments := JObj [] |}
       Sim.context0 None Sim.world0).1
  = Sim.quote +:+ "Tool 'nonexistent_tool' not found" +:+ Sim.quote.
Proof.
  rewrite (proj1 (tool_message_not_found (Sim.agent_of ollama [Sim.echo])
             {| tc_id := "call_c"; tc_name := "nonexistent_tool"; tc_arguments := JObj [] |}
             Sim.context0 None Sim.world0 eq_refl)).
  reflexivity.
Defined.

Lemma executeTool_callback_throws_witness :
  let r := executeTool (Sim.agent_of ollama [marker]) marker_call Sim.context0
             failing_callback Sim.world0 in
  tr_error r.1 = Some "socket closed" /\ Sim.files r.2 !! "/mark" = None.
Proof.
  pose proof (executeTool_callback_throws (Sim.agent_of ollama [marker]) marker_call
                Sim.context0 (fun _ w => (Rejected (Error "socket closed"), w))
                Sim.world0 marker (Error "socket closed") Sim.world0 eq_refl eq_refl)
    as Hx.
  change (Some (fun (_ : string) (w : Sim.World) => (Rejected (Error "socket closed"), w)))
    with failing_callback in Hx.
  cbn zeta. rewrite Hx. split; reflexivity.
Defined.

(** ** Construction of the adapter *)

Section ConstructionFacts.
Context {W : Type} `{Host W}.

(** X11: An adapter that the constructor returns holds the client of its
    provider, made from the non-empty API key of the environment, so
    [generateResponse] never reports a client that is not initialized. *)
Theorem new_AIProvider_initialized cfg (p : AIProvider) :
  new_AIProvider cfg = Resolved p ->
  ai_config p = cfg
  /\ (provider cfg = openai -> exists k, openai_client p = Some k
        /\ process_env "OPENAI_API_KEY" = Some k /\ k <> "")
  /\ (provider cfg = anthropic -> exists k, anthropic_client p = Some k
        /\ process_env "ANTHROPIC_API_KEY" = Some k /\ k <> "")
  /\ (provider cfg = groq -> exists k, groq_client p = Some k
        /\ process_env "GROQ_API_KEY" = Some k /\ k <> "").
Proof.
  unfold new_AIProvider, env_key. intros Hnew.
  destruct (provider cfg) eqn:Hp.
  - destruct (process_env "OPENAI_API_KEY") as [v|] eqn:Hv; [| discriminate Hnew].
    destruct (String.eqb_spec v ""); [discriminate Hnew |].
    inversion Hnew; subst p. cbn. split; [done |].
    split; [intros _; by exists v |]. split; intros Hx; discriminate Hx.
  - destruct (process_env "ANTHROPIC_API_KEY") as [v|] eqn:Hv; [| discriminate Hnew].
    destruct (String.eqb_spec v ""); [discriminate Hnew |].
    inversion Hnew; subst p. cbn. split; [done |].
    split; [intros Hx; discriminate Hx |].
    split; [intros _; by exists v | intros Hx; discriminate Hx].
  - destruct (process_env "GROQ_API_KEY") as [v|] eqn:Hv; [| discriminate Hnew].
    destruct (String.eqb_spec v ""); [discriminate Hnew |].
    inversion Hnew; subst p. cbn. split; [done |].
    split; [intros Hx; discriminate Hx |].
    split; [intros Hx; discriminate Hx | intros _; by exists v].
  - inversion Hnew; subst p. cbn. split; [done |].
    repeat split; intros Hx; discriminate Hx.
  - inversion Hnew; subst p. cbn. split; [done |].
    repeat split; intros Hx; discriminate Hx.
Qed.

(** Without the key the constructor of the agent throws. *)
Lemma new_Agent_missing_key cfg :
  provider cfg = openai ->
  process_env "OPENAI_API_KEY" = None \/ process_env "OPENAI_API_KEY" = Some "" ->
  new_Agent (W := W) cfg = Rejected (Error "OPENAI_API_KEY not set in environment").
Proof.
  intros Hp Hkey. unfold new_Agent, new_AIProvider, env_key. rewrite Hp.
  by destruct Hkey as [-> | ->].
Qed.

(** X12: A provider name outside the four known ones passes the constructor;
    every [generateResponse] then rejects, without any request, and
    [processMessage] rejects with it after one round. *)
Theorem unsupported_provider_rejects cfg name0 (a : Agent W) text ctx sid cb w :
  provider cfg = unsupported name0 ->
  new_Agent cfg = Resolved a ->
  (forall msgs (ts : list (Tool W)) w0,
      generateResponse (aiProvider a) msgs ts w0
      = (Rejected (Error ("Unsupported provider: " +:+ name0)), w0))
  /\ outcome (processMessage a text ctx sid cb w).1.1
     = Rejected (Error ("Unsupported provider: " +:+ name0)).
Proof.
  intros Hp Hnew. unfold new_Agent, new_AIProvider in Hnew. rewrite Hp in Hnew.
  inversion Hnew; subst a. clear Hnew.
  assert (Hgen : forall msgs (ts : list (Tool W)) w0,
             generateResponse (mkAIProvider cfg None None None) msgs ts w0
             = (Rejected (Error ("Unsupported provider: " +:+ name0)), w0)).
  { intros. unfold generateResponse. cbn [ai_config]. by rewrite Hp. }
  split; [exact Hgen |].
  edestruct (processMessage_first_call_rejected
               {| config := cfg; aiProvider := mkAIProvider cfg None None None;
                  tools := []; conversations := ∅ |} text ctx sid cb w)
    as (Hout & _); [apply Hgen | exact Hout].
Qed.
End ConstructionFacts.

Lemma new_AIProvider_initialized_witness :
  exists k, groq_client groq_provider = Some k /\ Sim.env "GROQ_API_KEY" = Some k.
Proof.
  destruct (new_AIProvider_initialized (H := Sim.host) (Sim.config_of groq)
              groq_provider eq_refl) as (_ & _ & _ & Hgroq).
  destruct (Hgroq eq_refl) as (k & Hk & Henv & _).
  exists k. split; [exact Hk | exact Henv].
Defined.

Lemma unsupported_provider_witness :
  outcome (processMessage (Sim.agent_of (unsupported "mistral") []) "hi" Sim.context0
             (Some "s1") None Sim.world0).1.1
  = Rejected (Error "Unsupported provider: mistral").
Proof.
  exact (proj2 (unsupported_provider_rejects (Sim.config_of (unsupported "mistral"))
                  "mistral" (Sim.agent_of (unsupported "mistral") []) "hi" Sim.context0
                  (Some "s1") None Sim.world0 eq_refl eq_refl)).
Defined.

(** ** Parsing the function calls of a reply *)

Section ParseFacts.
Context {W : Type} `{Host W}.
Implicit Types (w : W).

Lemma or_stamped_given (cid prefix : string) w :
  cid <> "" -> or_stamped (Some cid) prefix w = (cid, w).
Proof. intros Hc. unfold or_stamped. by destruct (String.eqb_spec cid ""). Qed.

Lemma parseGroqToolCall_identified tc w :
  (exists cid, gtc_id tc = Some cid /\ cid <> "") ->
  parseGroqToolCall tc w = (groq_call_parsed tc, w).
Proof.
  intros (cid & Hid & Hne). unfold parseGroqToolCall, groq_call_parsed.
  destruct (gtc_function tc) as [fn|]; [| done].
  rewrite Hid, or_stamped_given by done.
  by destruct (JSON_parse _).
Qed.

Lemma mapW_pure {A B : Type} (f : A -> W -> B * W) (g : A -> B) (l : list A) w :
  Forall (fun a => forall w0, f a w0 = (g a, w0)) l ->
  mapW f l w = (List.map g l, w).
Proof.
  intros Hl. induction Hl as [|a l Ha Hl IH]; simpl; [done |].
  by rewrite Ha, IH.
Qed.

Lemma omap_filter_function (tcs : list GroqToolCall) :
  omap (fun o => o)
    (List.map groq_call_parsed
       (List.filter (fun tc => match gtc_function tc with Some _ => true | None => false end)
          tcs))
  = omap groq_call_parsed tcs.
Proof.
  induction tcs as [|tc tcs IH]; [done |]. cbn [List.filter omap list_omap].
  destruct (gtc_function tc) as [fn|] eqn:Hfn.
  - cbn [List.map omap list_omap]. by rewrite IH.
  - rewrite IH. unfold groq_call_parsed at 2. by rewrite Hfn.
Qed.

Lemma parseGroqToolCalls_identified (tcs : list GroqToolCall) w :
  identified tcs ->
  parseGroqToolCalls tcs w = (omap groq_call_parsed tcs, w).
Proof.
  intros Hid. unfold parseGroqToolCalls.
  rewrite (mapW_pure parseGroqToolCall groq_call_parsed).
  - by rewrite omap_filter_function.
  - apply Forall_forall. intros tc Hin w0. apply parseGroqToolCall_identified.
    apply list_elem_of_In, filter_In in Hin as [Hin _].
    unfold identified in Hid. rewrite Forall_forall in Hid.
    apply Hid. by apply list_elem_of_In.
Qed.

(** X13: The Groq adapter keeps the function calls whose arguments parse, in
    their order, and drops the others (and those without a function); the
    reply is not lost. *)
Theorem parseGroqToolCalls_drops_malformed (tcs : list GroqToolCall) w :
  identified tcs ->
  parseGroqToolCalls tcs w = (omap groq_call_parsed tcs, w).
Proof. apply parseGroqToolCalls_identified. Qed.

(** X15: The OpenAI adapter on calls that all parse: one request per call, in
    order, under the identifiers and names of the calls. *)
Theorem parseOpenAIToolCalls_well_formed (tcs : list OpenAIToolCall) :
  Forall (fun tc => exists args, JSON_parse (fn_arguments (otc_function tc)) = Resolved args)
         tcs ->
  exists calls,
    parseOpenAIToolCalls tcs = Resolved calls
    /\ List.map tc_id calls = List.map otc_id tcs
    /\ List.map tc_name calls = List.map (fun tc => fn_name (otc_function tc)) tcs
    /\ Forall2 (fun tc c => JSON_parse (fn_arguments (otc_function tc))
                            = Resolved (tc_arguments c)) tcs calls.
Proof.
  intros Hall. induction Hall as [|tc tcs [args Hargs] Hall IH].
  - exists []. repeat split; constructor.
  - destruct IH as (calls & Hp & Hids & Hnames & Hargs').
    eexists (_ :: calls). cbn [parseOpenAIToolCalls].
    unfold parseOpenAIToolCall at 1. rewrite Hargs, Hp.
    split; [reflexivity |]. cbn [List.map tc_id tc_name].
    rewrite Hids, Hnames. split; [done |]. split; [done |].
    by constructor.
Qed.

Lemma string_app_nil_r (s : string) : s +:+ "" = s.
Proof.
  induction s as [|c s IH]; [done |].
  change (String c s +:+ "") with (String c (s +:+ "")). by rewrite IH.
Qed.

Lemma string_app_assoc (s1 s2 s3 : string) : (s1 +:+ s2) +:+ s3 = s1 +:+ (s2 +:+ s3).
Proof.
  induction s1 as [|c s1 IH]; [done |].
  change ((String c s1 +:+ s2) +:+ s3) with (String c ((s1 +:+ s2) +:+ s3)).
  by rewrite IH.
Qed.

Lemma processBlock_fold (blocks : list ContentBlock) (text : string)
    (acc : option (list ToolCall)) :
  fold_left processBlock blocks (text, acc) =
    (text +:+ fold_right String.append "" (List.map block_text blocks),
     match omap block_call blocks with
     | [] => acc
     | cs => Some (match acc with Some l => l | None => [] end ++ cs)
     end).
Proof.
  revert text acc. induction blocks as [|b blocks IH]; intros text acc.
  - cbn [fold_left List.map fold_right]. by rewrite string_app_nil_r.
  - cbn [fold_left]. destruct b as [t|bid bname input|ty]; cbn [processBlock fst snd].
    + rewrite IH. cbn [List.map fold_right block_text]. by rewrite string_app_assoc.
    + rewrite IH. cbn [List.map fold_right block_text].
      change (omap block_call (ToolUseBlock bid bname input :: blocks))
        with ({| tc_id := bid; tc_name := bname; tc_arguments := input |}
              :: omap block_call blocks).
      f_equal. destruct (omap block_call blocks) as [|c cs].
      * by destruct acc.
      * by rewrite <- app_assoc.
    + rewrite IH. cbn [List.map fold_right block_text]. done.
Qed.

(** The blocks of an Anthropic reply: the text of the message is the
    concatenation of the text blocks, its requests are the [tool_use] blocks
    in order, and [toolCalls] stays unset when there is none. *)
Lemma anthropic_blocks_collected (blocks : list ContentBlock) :
  fold_left processBlock blocks ("", None) =
    (fold_right String.append "" (List.map block_text blocks),
     match omap block_call blocks with
     | [] => None
     | cs => Some cs
     end).
Proof. rewrite processBlock_fold. by destruct (omap block_call blocks). Qed.
End ParseFacts.

Lemma parseGroqToolCalls_witness :
  List.map tc_id (parseGroqToolCalls groq_mixed_calls Sim.world0).1
  = ["call_1"; "call_3"].
Proof.
  rewrite (parseGroqToolCalls_drops_malformed groq_mixed_calls Sim.world0).
  - reflexivity.
  - repeat constructor; eexists; (split; [reflexivity | discriminate]).
Defined.

Lemma parseOpenAIToolCalls_witness :
  exists calls,
    parseOpenAIToolCalls
      [ {| otc_id := "call_1";
           otc_function := {| fn_name := "echo"; fn_arguments := "{}" |} |} ]
    = Resolved calls /\ List.map tc_id calls = ["call_1"].
Proof.
  destruct (parseOpenAIToolCalls_well_formed (H := Sim.host)
              [ {| otc_id := "call_1";
                   otc_function := {| fn_name := "echo"; fn_arguments := "{}" |} |} ])
    as (calls & Hp & Hids & _).
  - constructor; [| constructor]. eexists. reflexivity.
  - exists calls. split; [exact Hp | exact Hids].
Defined.

(** ** Replies and requests of the adapters *)

Section RequestFacts.
Context {W : Type} `{Host W}.
Implicit Types (self : AIProvider) (msgs : list AgentMessage) (ts : list (Tool W))
  (w : W).

(** X16: A reply of the Anthropic endpoint becomes one assistant message: its
    text is the concatenation of the text blocks, its requests are the
    [tool_use] blocks in order ([toolCalls] stays unset when there is none),
    and its identifier is the reply's. *)
Theorem generateAnthropicResponse_collects self client msgs ts sys w response w1 :
  anthropic_client self = Some client ->
  anthropic_messages_create client (anthropic_request self msgs ts sys) w
    = (Resolved response, w1) ->
  generateAnthropicResponse self msgs ts sys w =
    (Resolved {| id := ares_id response; role := assistant;
                 content := fold_right String.append ""
                              (List.map block_text (ares_content response));
                 timestamp := (Date_now w1).1;
                 toolCalls := match omap block_call (ares_content response) with
                              | [] => None
                              | cs => Some cs
                              end;
                 toolResults := None |}, (Date_now w1).2).
Proof.
  intros Hc Hcall. unfold generateAnthropicResponse, anthropic_request in *.
  rewrite Hc. unfold bind at 1. rewrite Hcall. unfold bind, lift, resolve.
  destruct (Date_now w1) as [now w2]. cbn [fst snd].
  by rewrite anthropic_blocks_collected.
Qed.

(** X17: The [tools] field of the request is left out when no tool is
    registered; otherwise it lists one definition per tool, in order, under
    the tool's name and description. *)
Theorem request_tools_field self msgs ts sys :
  (ts = [] -> req_tools (groq_request self msgs ts sys) = None)
  /\ (ts <> [] ->
      exists defs,
        req_tools (groq_request self msgs ts sys) = Some defs
        /\ List.map (fun d => fd_name (td_function d)) defs = List.map name ts
        /\ List.map (fun d => fd_description (td_function d)) defs
           = List.map description ts
        /\ Forall (fun d => td_type d = "function") defs).
Proof.
  unfold groq_request, chatRequest. cbn [req_tools]. split.
  - by intros ->.
  - intros Hne. exists (List.map chatToolDefinition ts).
    split; [by destruct ts |].
    rewrite !List.map_map. split; [done |]. split; [done |].
    apply Forall_forall. intros d Hd.
    apply list_elem_of_In, in_map_iff in Hd as (t & <- & _). done.
Qed.

Lemma fromEntries_snoc {V : Type} (l : list (string * V)) k v :
  fromEntries (l ++ [(k, v)]) = map_set k v (fromEntries l).
Proof. unfold fromEntries. by rewrite fold_left_app. Qed.

Lemma fromEntries_get_last {V : Type} (l : list (string * V)) k :
  map_get k (fromEntries l) = assoc_get k (rev l).
Proof.
  induction l as [|[k0 v0] l IH] using rev_ind; [done |].
  rewrite fromEntries_snoc, rev_app_distr. cbn [rev app assoc_get].
  destruct (String.eqb_spec k0 k) as [->|Hne].
  - apply map_get_set_eq.
  - by rewrite map_get_set_ne.
Qed.

Lemma assoc_get_skip {V : Type} (l1 l2 : list (string * V)) k :
  (forall kv, In kv l1 -> fst kv <> k) ->
  assoc_get k (l1 ++ l2) = assoc_get k l2.
Proof.
  induction l1 as [|[k1 v1] l1 IH]; intros Hl1; [done |]. cbn.
  destruct (String.eqb_spec k1 k) as [Heq|Hne].
  - exfalso. apply (Hl1 (k1, v1)); [by left | done].
  - apply IH. intros kv Hkv. apply Hl1. by right.
Qed.

Lemma assoc_get_rev_last {V : Type} (before after : list (string * V)) k v :
  Forall (fun kv => fst kv <> k) after ->
  assoc_get k (rev (before ++ (k, v) :: after)) = Some v.
Proof.
  intros Hafter. rewrite rev_app_distr. cbn [rev]. rewrite <- app_assoc.
  rewrite assoc_get_skip.
  - cbn. by rewrite String.eqb_refl.
  - intros kv Hkv. apply in_rev in Hkv. rewrite Forall_forall in Hafter.
    apply Hafter. by apply list_elem_of_In.
Qed.

(** X18: The schema of a tool: of several parameters of one name the last
    declares the property; an array parameter gets string items and an
    enumeration is carried over; [required] lists the required names in
    order. *)
Theorem parameterSchema_property (before after : list ToolParameter) p :
  Forall (fun q => tp_name q <> tp_name p) after ->
  let schema := parameterSchema (before ++ p :: after) in
  map_get (tp_name p) (properties schema) =
    Some {| pd_type := tp_type p; pd_description := tp_description p;
            pd_enum := tp_enum p;
            pd_items := match tp_type p with TArray => Some TString | _ => None end |}
  /\ required schema
     = List.map tp_name (List.filter tp_required (before ++ p :: after))
  /\ ps_type schema = "object".
Proof.
  intros Hafter. cbn zeta. split; [| done].
  unfold parameterSchema. cbn [properties].
  rewrite fromEntries_get_last, List.map_app. cbn [List.map].
  apply (assoc_get_rev_last _ _ (tp_name p) (propDef p)).
  apply Forall_forall. intros kv Hkv.
  apply list_elem_of_In, in_map_iff in Hkv as (q & <- & Hq). cbn.
  rewrite Forall_forall in Hafter. apply Hafter. by apply list_elem_of_In.
Qed.

(** X19: A configured temperature of zero, or none, gives the default 0.7 in
    the request, and a token limit of zero, or none, gives 2000: zero cannot
    be asked for. *)
Theorem chatRequest_defaults cfg formatted defs :
  (temperature cfg = None \/ temperature cfg = Some 0%float ->
   req_temperature (chatRequest cfg formatted defs) = 0.7%float)
  /\ (maxTokens cfg = None \/ maxTokens cfg = Some 0 ->
      req_max_tokens (chatRequest cfg formatted defs) = 2000)
  /\ (forall n, maxTokens cfg = Some n -> n <> 0 ->
      req_max_tokens (chatRequest cfg formatted defs) = n).
Proof.
  unfold chatRequest. cbn [req_temperature req_max_tokens]. split; [| split].
  - by intros [-> | ->].
  - by intros [-> | ->].
  - intros n -> Hn. unfold or_int. by destruct (Z.eqb_spec n 0).
Qed.
End RequestFacts.

Lemma generateAnthropicResponse_witness :
  exists m w',
    generateAnthropicResponse anthropic_provider [] [] "sys" anthropic_world
    = (Resolved m, w')
    /\ content m = "Let me look. Done."
    /\ option_map (List.map tc_id) (toolCalls m) = Some ["toolu_1"].
Proof.
  eexists _, _. split.
  - apply (generateAnthropicResponse_collects anthropic_provider "sk-ant-test" [] []
             "sys" anthropic_world); reflexivity.
  - split; reflexivity.
Defined.

Lemma parameterSchema_property_witness :
  option_map pd_type
    (map_get "path" (properties (parameterSchema duplicate_parameters)))
  = Some TNumber.
Proof.
  destruct (parameterSchema_property
              [ {| tp_name := "path"; tp_type := TString; tp_description := "first";
                   tp_required := true; tp_enum := None |};
                {| tp_name := "tags"; tp_type := TArray; tp_description := "labels";
                   tp_required := false; tp_enum := None |} ]
              []
              {| tp_name := "path"; tp_type := TNumber; tp_description := "second";
                 tp_required := false; tp_enum := Some ["a"; "b"] |})
    as (Hget & _).
  - constructor.
  - cbn zeta in Hget. exact (f_equal (option_map pd_type) Hget).
Defined.

(** ** Errors of the endpoints *)

Section EndpointErrors.
Context {W : Type} `{Host W}.
Implicit Types (self : AIProvider) (msgs : list AgentMessage) (ts : list (Tool W))
  (w : W).

(** X20: The OpenAI, Anthropic and Ollama adapters make one request; when the
    endpoint rejects it the adapter rejects with the same error, and no
    usage is tracked. *)
Theorem endpoint_error_propagates self msgs ts sys w e w1 :
  (forall client,
      openai_client self = Some client ->
      openai_chat_completions_create client (groq_request self msgs ts sys) w
        = (Rejected e, w1) ->
      generateOpenAIResponse self msgs ts sys w = (Rejected e, w1))
  /\ (forall client,
      anthropic_client self = Some client ->
      anthropic_messages_create client (anthropic_request self msgs ts sys) w
        = (Rejected e, w1) ->
      generateAnthropicResponse self msgs ts sys w = (Rejected e, w1))
  /\ (forall url request,
      axios_post url request w = (Rejected e, w1) ->
      url = or_string (process_env "OLLAMA_BASE_URL") "http://localhost:11434"
            +:+ "/api/chat" ->
      request = {| oreq_model := model (ai_config self);
                   oreq_messages := formatOllamaMessages sys msgs;
                   oreq_stream := false;
                   oreq_options_temperature :=
                     or_number (temperature (ai_config self)) 0.7%float |} ->
      generateOllamaResponse self msgs ts sys w = (Rejected e, w1)).
Proof.
  split; [| split].
  - intros client Hc Hcall. unfold generateOpenAIResponse, groq_request in *.
    rewrite Hc. unfold bind at 1. by rewrite Hcall.
  - intros client Hc Hcall. unfold generateAnthropicResponse, anthropic_request in *.
    rewrite Hc. unfold bind at 1. by rewrite Hcall.
  - intros url request Hcall -> ->. unfold generateOllamaResponse.
    unfold bind at 1. by rewrite Hcall.
Qed.

(** X21: The earlier revision of the Groq adapter has no retry: a rejection of
    its request is the rejection of the call, [tool_use_failed] included. *)
Theorem generateGroqResponse_v1_no_retry self client msgs ts sys w e w1 :
  groq_client self = Some client ->
  groq_chat_completions_create client (groq_request self msgs ts sys) w
    = (Rejected e, w1) ->
  generateGroqResponse_v1 self msgs ts sys w = (Rejected e, w1).
Proof.
  intros Hc Hcall. unfold generateGroqResponse_v1, groq_request in *.
  rewrite Hc. unfold bind at 1. by rewrite Hcall.
Qed.
End EndpointErrors.

Lemma generateGroqResponse_v1_witness :
  exists w1,
    generateGroqResponse_v1 groq_provider [] [Sim.echo] "sys" groq_failing_world
    = (Rejected tool_use_failed, w1)
    /\ length (Sim.groq_requests w1) = 1%nat.
Proof.
  eexists. split.
  - apply (generateGroqResponse_v1_no_retry groq_provider "gsk-test" [] [Sim.echo]
             "sys" groq_failing_world); reflexivity.
  - reflexivity.
Defined.

(** ** The file tools on their other paths *)

Section FileToolPaths.
Context {W : Type} `{Host W}.
Implicit Types (w : W) (ctx : ToolContext) (args : Json).

(** X22: A path that fails the prefix test is refused before any file system
    call: the world is unchanged. *)
Theorem read_file_outside_denied args filePath ctx w :
  json_get "filePath" args = Some (JStr filePath) ->
  within_workspace (workspace_of ctx) filePath = false ->
  execute FileSystemTool args ctx w =
    (Resolved (JStr ("Error: Access denied. File must be within workspace: "
                     +:+ workspace_of ctx)), w).
Proof.
  intros Harg Hout. cbn [execute FileSystemTool].
  unfold read_file_execute, destructure.
  destruct args; try discriminate Harg.
  rewrite Harg. unfold try_catch. by rewrite Hout.
Qed.

(** A [try] whose body resolves only with strings and whose handler
    always resolves with a string. *)
Lemma try_catch_string (m : Async W Json) (h : JsError -> Async W Json) w :
  (forall j w', m w = (Resolved j, w') -> exists text, j = JStr text) ->
  (forall e w0, exists text, h e w0 = (Resolved (JStr text), w0)) ->
  exists text w', try_catch m h w = (Resolved (JStr text), w').
Proof.
  intros Hm Hh. unfold try_catch. destruct (m w) as [[j|e] w'] eqn:Hmw.
  - destruct (Hm j w' eq_refl) as [text ->]. by exists text, w'.
  - destruct (Hh e w') as [text Ht]. by exists text, w'.
Qed.

(** X23: [read_file] reports every failure in its result: for arguments other
    than [null] the promise resolves with a string, whatever the file system
    does. *)
Theorem read_file_never_rejects args ctx w :
  args <> JNull ->
  exists text w', read_file_execute args ctx w = (Resolved (JStr text), w').
Proof.
  intros Hargs. unfold read_file_execute.
  assert (Hd : destructure "filePath" args = Resolved (json_get "filePath" args))
    by (by destruct args).
  rewrite Hd. apply try_catch_string.
  - intros j w'. destruct (json_get "filePath" args) as [[| | |filePath| |]|];
      try (unfold throw; intros Hx; discriminate Hx).
    destruct (negb (within_workspace _ _)).
    { unfold resolve. intros Hx. inversion Hx. eauto. }
    unfold bind. destruct (fs_stat _ w) as [[isFile|e] w1]; [| intros Hx; discriminate Hx].
    destruct (negb isFile).
    { unfold resolve. intros Hx. inversion Hx. eauto. }
    destruct (fs_readFile _ w1) as [[text|e] w2]; [| intros Hx; discriminate Hx].
    unfold resolve. intros Hx. inversion Hx. eauto.
  - intros e w0. destruct (has_code e "ENOENT"); unfold resolve; eauto.
Qed.

(** X24: A file that does not exist is reported as not found; any other file
    system error is reported with its message. *)
Theorem read_file_stat_error filePath ctx w e w1 :
  within_workspace (workspace_of ctx) filePath = true ->
  fs_stat (path_resolve process_cwd (fullPath_of (workspace_of ctx) filePath)) w
    = (Rejected e, w1) ->
  read_file_execute (JObj [("filePath", JStr filePath)]) ctx w =
    (Resolved (JStr (if has_code e "ENOENT"
                     then "Error: File not found: " +:+ filePath
                     else "Error reading file: " +:+ message e)), w1).
Proof.
  intros Hin Hstat. unfold read_file_execute, destructure, json_get, assoc_get.
  rewrite String.eqb_refl. unfold try_catch, bind. rewrite Hin. cbn [negb].
  rewrite Hstat. by destruct (has_code e "ENOENT").
Qed.

Lemma write_file_allowed root filePath data ctx w w1 w2 :
  workspace_of ctx = root ->
  within_workspace root filePath = true ->
  fs_mkdir (path_dirname (path_resolve process_cwd (fullPath_of root filePath))) w
    = (Resolved tt, w1) ->
  fs_writeFile (path_resolve process_cwd (fullPath_of root filePath)) (Some data) w1
    = (Resolved tt, w2) ->
  write_file_execute (JObj [("filePath", JStr filePath); ("content", data)]) ctx w =
    (Resolved (JStr ("✅ Successfully wrote to file: " +:+ filePath)), w2).
Proof.
  intros Hroot Hin Hmk Hwr.
  unfold write_file_execute, destructure, json_get.
  cbn [assoc_get]. rewrite String.eqb_refl.
  replace (String.eqb "filePath" "content") with false by reflexivity.
  rewrite String.eqb_refl, Hroot. unfold try_catch, bind, resolve.
  rewrite Hin. cbn [negb]. rewrite Hmk. by rewrite Hwr.
Qed.

(** X25: [write_file] shares the prefix test of [read_file]: with workspace
    root [/workspace] it creates the directory [/workspaceX] and writes
    [/workspaceX/notes.txt]. *)
Theorem write_file_sibling_directory_escapes (cur uid : option string) (sess : string)
    data w :
  let ctx := {| workspaceRoot := Some "/workspace"; currentFile := cur;
                userId := uid; sessionId := sess |} in
  within_workspace "/workspace" "/workspaceX/notes.txt" = true
  /\ forall w1 w2,
      fs_mkdir "/workspaceX" w = (Resolved tt, w1) ->
      fs_writeFile "/workspaceX/notes.txt" (Some data) w1 = (Resolved tt, w2) ->
      write_file_execute
        (JObj [("filePath", JStr "/workspaceX/notes.txt"); ("content", data)]) ctx w =
        (Resolved (JStr ("✅ Successfully wrote to file: /workspaceX/notes.txt")), w2).
Proof.
  cbn zeta. split; [reflexivity |]. intros w1 w2 Hmk Hwr.
  by apply (write_file_allowed "/workspace" "/workspaceX/notes.txt" data _ w w1 w2).
Qed.

(** X26: [write_file] too reports every failure in its result. *)
Theorem write_file_never_rejects args ctx w :
  args <> JNull ->
  exists text w', write_file_execute args ctx w = (Resolved (JStr text), w').
Proof.
  intros Hargs. unfold write_file_execute.
  assert (Hd : destructure "filePath" args = Resolved (json_get "filePath" args))
    by (by destruct args).
  rewrite Hd. apply try_catch_string.
  - intros j w'. destruct (json_get "filePath" args) as [[| | |filePath| |]|];
      try (unfold throw; intros Hx; discriminate Hx).
    destruct (negb (within_workspace _ _)).
    { unfold resolve. intros Hx. inversion Hx. eauto. }
    unfold bind. destruct (fs_mkdir _ w) as [[[]|e] w1]; [| intros Hx; discriminate Hx].
    destruct (fs_writeFile _ _ w1) as [[[]|e] w2]; [| intros Hx; discriminate Hx].
    unfold resolve. intros Hx. inversion Hx. eauto.
  - intros e w0. unfold resolve. eauto.
Qed.
End FileToolPaths.

Lemma read_file_outside_denied_witness :
  execute FileSystemTool (JObj [("filePath", JStr "../etc/passwd")]) Sim.context0
    Sim.world0
  = (Resolved (JStr "Error: Access denied. File must be within workspace: /workspace"),
     Sim.world0).
Proof.
  apply (read_file_outside_denied (JObj [("filePath", JStr "../etc/passwd")])
           "../etc/passwd" Sim.context0 Sim.world0); reflexivity.
Defined.

Lemma read_file_never_rejects_witness :
  exists text w',
    read_file_execute (JObj [("path", JStr "README.md")]) Sim.context0 Sim.world0
    = (Resolved (JStr text), w').
Proof.
  apply (read_file_never_rejects (JObj [("path", JStr "README.md")]) Sim.context0
           Sim.world0).
  discriminate.
Defined.

Lemma read_file_stat_error_witness :
  read_file_execute (JObj [("filePath", JStr "missing.txt")]) Sim.context0 Sim.world0
  = (Resolved (JStr "Error: File not found: missing.txt"), Sim.world0).
Proof.
  apply (read_file_stat_error "missing.txt" Sim.context0 Sim.world0
           (Sim.enoent "/workspace/missing.txt") Sim.world0); reflexivity.
Defined.

Lemma write_file_sibling_witness :
  let r := execute WriteFileTool
             (JObj [("filePath", JStr "/workspaceX/notes.txt"); ("content", JStr "x")])
             Sim.context0 Sim.world0 in
  Sim.files r.2 !! "/workspaceX/notes.txt" = Some "x".
Proof.
  destruct (write_file_sibling_directory_escapes None None "s1" (JStr "x") Sim.world0)
    as [_ Hwrite].
  pose proof (Hwrite Sim.world0
                (Sim.with_files (<["/workspaceX/notes.txt" := "x"]> ∅) Sim.world0)
                eq_refl eq_refl) as Hx.
  cbn zeta.
  change (execute WriteFileTool
            (JObj [("filePath", JStr "/workspaceX/notes.txt"); ("content", JStr "x")])
            Sim.context0 Sim.world0)
    with (write_file_execute
            (JObj [("filePath", JStr "/workspaceX/notes.txt"); ("content", JStr "x")])
            {| workspaceRoot := Some "/workspace"; currentFile := None;
               userId := None; sessionId := "s1" |} Sim.world0).
  rewrite Hx. reflexivity.
Defined.

Lemma write_file_never_rejects_witness :
  exists text w',
    write_file_execute (JObj [("filePath", JStr "a.txt")]) Sim.context0 Sim.world0
    = (Resolved (JStr text), w').
Proof.
  apply (write_file_never_rejects (JObj [("filePath", JStr "a.txt")]) Sim.context0
           Sim.world0).
  discriminate.
Defined.

(** ** The Groq adapter on a reply with a malformed call *)

Section GroqReply.
Context {W : Type} `{Host W}.
Implicit Types (self : AIProvider) (msgs : list AgentMessage) (ts : list (Tool W))
  (w : W).

(** X14: Where the OpenAI adapter rejects, the Groq adapter resolves: the reply
    becomes an assistant message with the reply's text and the calls whose
    arguments parse. *)
Theorem generateGroqResponse_keeps_reply self client msgs ts sys w response w1
    rid m others tc tcs :
  groq_client self = Some client ->
  groq_chat_completions_create client (groq_request self msgs ts sys) w
    = (Resolved response, w1) ->
  gr_id response = Some rid -> rid <> "" ->
  gr_choices response = m :: others ->
  gm_tool_calls m = Some (tc :: tcs) ->
  identified (tc :: tcs) ->
  generateGroqResponse self msgs ts sys w =
    (Resolved {| id := rid; role := assistant;
                 content := or_string (gm_content m) "";
                 timestamp := (Date_now w1).1;
                 toolCalls := Some (omap groq_call_parsed (tc :: tcs));
                 toolResults := None |}, (Date_now w1).2).
Proof.
  intros Hc Hcall Hid Hrid Hch Htcs Hident.
  unfold generateGroqResponse, groq_request in *. rewrite Hc.
  unfold try_catch. unfold bind at 1. rewrite Hcall.
  unfold bind, first_choice, lift, resolve. rewrite Hch, Hid.
  rewrite or_stamped_given by done.
  destruct (Date_now w1) as [now w2]. cbn [fst snd]. rewrite Htcs.
  by rewrite parseGroqToolCalls_identified.
Qed.
End GroqReply.

Lemma generateGroqResponse_keeps_reply_witness :
  exists m w',
    generateGroqResponse groq_provider [] [Sim.echo] "sys" groq_mixed_world
    = (Resolved m, w')
    /\ content m = "Working on it."
    /\ option_map (List.map tc_id) (toolCalls m) = Some ["call_1"; "call_3"].
Proof.
  eexists _, _. split.
  - eapply (generateGroqResponse_keeps_reply groq_provider "gsk-test" [] [Sim.echo]
              "sys" groq_mixed_world).
    + reflexivity.
    + reflexivity.
    + reflexivity.
    + discriminate.
    + reflexivity.
    + reflexivity.
    + repeat constructor; eexists; (split; [reflexivity | discriminate]).
  - split; reflexivity.
Defined.

(** The two requests of the retry, as the endpoint saw them: the first
    with the tool definitions, the second without. *)
Example groq_retry_requests :
  List.map (fun r => match req_tools r with Some _ => true | None => false end)
    (Sim.groq_requests
       (generateGroqResponse groq_provider [] [Sim.echo] "sys" groq_failing_world).2)
  = [true; false].
Proof. vm_compute. reflexivity. Qed.

(** ** The store is append-only *)

Section AppendOnly.
Context {W : Type} `{Host W}.
Implicit Types (self : Agent W) (ctx : ToolContext) (w : W) (text : string)
  (sid : option string) (cb : @StatusCallback W).

Lemma getOrCreateConversation_existing s uid self h :
  getConversation s self = Some h ->
  (getOrCreateConversation s uid self).1 = h.
Proof. unfold getOrCreateConversation, getConversation. by intros ->. Qed.

(** X5: A call on a session that has a history keeps every message of it, in
    place, and appends; the session and user identifiers of the history are
    those of its creation, whoever calls. *)
Theorem processMessage_append_only self text ctx sid cb w h :
  let s := (resolveSessionId sid w).1 in
  getConversation s self = Some h ->
  exists h',
    getConversation s (processMessage self text ctx sid cb w).1.2 = Some h'
    /\ messages h `prefix_of` messages h'
    /\ (length (messages h) < length (messages h'))%nat
    /\ ch_sessionId h' = ch_sessionId h
    /\ ch_userId h' = ch_userId h.
Proof.
  cbn zeta. intros Hh. rewrite processMessage_eq. cbn [fst snd].
  set (s := (resolveSessionId sid w).1) in *.
  rewrite (getOrCreateConversation_existing s (userId ctx) self h Hh).
  destruct (loop_appends_turns maxIterations
              (getOrCreateConversation s (userId ctx) self).2 ctx cb
              (messages h ++ [userMessage_of text sid w])
              (Date_now (nanoid (resolveSessionId sid w).2).2).2)
    as (appended & Happ & _).
  eexists. split.
  { unfold getConversation, set_conversations. cbn [conversations].
    apply lookup_insert_eq. }
  cbn [messages ch_sessionId ch_userId]. rewrite Happ.
  split; [rewrite <- app_assoc; by eexists |].
  split; [rewrite !length_app; cbn; lia | done].
Qed.
End AppendOnly.

Lemma processMessage_append_only_witness :
  exists h',
    getConversation "s1"
      (processMessage agent_after_hello "and now?" Sim.context0 (Some "s1") None
         ollama_world).1.2 = Some h'
    /\ (2 < length (messages h'))%nat.
Proof.
  edestruct (processMessage_append_only agent_after_hello "and now?" Sim.context0
               (Some "s1") None ollama_world) as (h' & Hget & _ & Hlen & _).
  { vm_compute. reflexivity. }
  exists h'. split; [exact Hget | exact Hlen].
Defined.
